(** * Roku remote debugger: outbound requests (lib/rokudebug/DebuggerRequest.py)

    A shallow embedding of the request classes of [DebuggerRequest.py] and
    the properties of their constructors and [send] methods.

    Conventions of the embedding.
    - Python integers are [Z]; a Python [str] is the list of its Unicode code
      points ([N], below 0x110000); bytes are [N].
    - Argument values are the Python values the constructors test for:
      [None], booleans, integers, members of the two [IntEnum] classes and
      lists of strings.  Floats, a string passed where a number, a flag or
      a list is expected, and user-defined objects are outside the model.
      The source's [int()] and [len()] accept more than these (floats and
      numeric strings, tuples and strings): a statement over [Value] speaks
      of the values of [Value] only.
    - A request record shows the contents of the objects its fields refer
      to.  The variables constructor keeps the list it is given, not a copy:
      a change the caller makes to that list afterwards shows in the
      request ([with_caller_list]).
    - [assert] statements are active (the interpreter's default; they vanish
      under [python -O]).
    - The debugger client (the codec) is not part of this file in the source:
      it is an arbitrary record of four operations over an abstract state. *)

From Stdlib Require Import ZArith NArith List Bool Lia Sorted.
Import ListNotations.
Open Scope Z_scope.

(** ** Module constants and enumerations *)

Definition UINT8_SIZE : Z := 1.
Definition UINT32_SIZE : Z := 4.

(** Size in bytes of a simple request with no parameters:
    packetSize, requestID, cmdCode. *)
Definition NO_PARAMS_REQUEST_SIZE : Z := 3 * UINT32_SIZE.

Inductive CmdCode :=
| STOP | CONTINUE | THREADS | STACKTRACE | VARIABLES | STEP | EXIT_CHANNEL.

Definition CmdCode_value (c : CmdCode) : Z :=
  match c with
  | STOP => 1
  | CONTINUE => 2
  | THREADS => 3
  | STACKTRACE => 4
  | VARIABLES => 5
  | STEP => 6
  | EXIT_CHANNEL => 122
  end.

Inductive StepType := NONE | LINE | OUT | OVER.

Definition StepType_value (s : StepType) : Z :=
  match s with
  | NONE => 0
  | LINE => 1
  | OUT => 2
  | OVER => 3
  end.

(** [_VariablesRequestFlags.GET_CHILD_KEYS]; these values must fit in 8 bits. *)
Definition GET_CHILD_KEYS : Z := 0x01.

(** ** Python values, exceptions and built-ins *)

Inductive Exn :=
| AssertionError | AttributeError | TypeError | UnicodeEncodeError.

Inductive Res (A : Type) :=
| Ok (a : A)
| Raise (e : Exn).
Arguments Ok {A} a.
Arguments Raise {A} e.

Definition is_Ok {A} (r : Res A) : bool :=
  match r with Ok _ => true | Raise _ => false end.

Definition str := list N.

Inductive Value :=
| VNone
| VBool (b : bool)
| VInt (n : Z)
| VStepType (s : StepType)
| VCmdCode (c : CmdCode)
| VList (l : list str).

(** The integer a value is, for instances of [int] ([bool] and the
    [IntEnum] members are). *)
Definition int_value (v : Value) : option Z :=
  match v with
  | VBool b => Some (if b then 1 else 0)
  | VInt n => Some n
  | VStepType s => Some (StepType_value s)
  | VCmdCode c => Some (CmdCode_value c)
  | VNone | VList _ => None
  end.

(** [int(v)] *)
Definition py_int (v : Value) : Res Z :=
  match int_value v with
  | Some n => Ok n
  | None => Raise TypeError
  end.

(** [v == None] *)
Definition py_is_None (v : Value) : bool :=
  match v with VNone => true | _ => false end.

(** [v == True] and [v == False]: numeric comparison with 1 and 0. *)
Definition py_eq_bool (v : Value) (b : bool) : bool :=
  match int_value v with
  | Some n => n =? (if b then 1 else 0)
  | None => false
  end.

(** Truth value, as tested by [if v] and [not v]. *)
Definition py_truth (v : Value) : bool :=
  match v with
  | VNone => false
  | VList l => negb (Nat.eqb (length l) 0)
  | _ => match int_value v with
         | Some n => negb (n =? 0)
         | None => false
         end
  end.

(** [len(v)] *)
Definition py_len (v : Value) : Res Z :=
  match v with
  | VList l => Ok (Z.of_nat (length l))
  | _ => Raise TypeError
  end.

(** The elements visited by [for elem in v]. *)
Definition py_iter (v : Value) : Res (list str) :=
  match v with
  | VList l => Ok l
  | _ => Raise TypeError
  end.

(** *** [str.encode('utf-8')] *)

Definition is_surrogate (c : N) : bool :=
  ((0xD800 <=? c) && (c <=? 0xDFFF))%N.

Definition continuation (c : N) : N := N.lor 0x80 (N.land c 0x3F).

Definition utf8_code_point (c : N) : list N :=
  if (c <? 0x80)%N then [c]
  else if (c <? 0x800)%N then
    [N.lor 0xC0 (N.shiftr c 6); continuation c]
  else if (c <? 0x10000)%N then
    [N.lor 0xE0 (N.shiftr c 12); continuation (N.shiftr c 6); continuation c]
  else
    [N.lor 0xF0 (N.shiftr c 18); continuation (N.shiftr c 12);
     continuation (N.shiftr c 6); continuation c].

Definition utf8_bytes (s : str) : list N := flat_map utf8_code_point s.

(** Lone surrogates cannot be encoded: [encode] raises on them. *)
Definition encode_utf8 (s : str) : Res (list N) :=
  if existsb is_surrogate s then Raise UnicodeEncodeError
  else Ok (utf8_bytes s).

(** Number of bytes of the UTF-8 form of [s]. *)
Definition utf8_len (s : str) : Z := Z.of_nat (length (utf8_bytes s)).

(** ** The interpreter state the constructors read *)

(** The object [gMain] of the main module; its attribute may be missing. *)
Record GMain := { gDebugLevel : option Z }.

Record Globals := {
  main_gMain : option GMain;   (* sys.modules['__main__'].gMain *)
  gMain : option GMain         (* the global gMain of this module *)
}.

Definition Init (A : Type) : Type := Globals -> Res A * Globals.

Definition init_ret {A} (a : A) : Init A := fun g => (Ok a, g).
Definition init_raise {A} (e : Exn) : Init A := fun g => (Raise e, g).
Definition init_bind {A B} (m : Init A) (k : A -> Init B) : Init B :=
  fun g =>
    match m g with
    | (Ok a, g') => k a g'
    | (Raise e, g') => (Raise e, g')
    end.
Definition init_lift {A} (r : Res A) : Init A := fun g => (r, g).

(** [assert b] *)
Definition init_assert (b : bool) : Init unit :=
  if b then init_ret tt else init_raise AssertionError.

Declare Scope init_scope.
Delimit Scope init_scope with init.
Notation "x <- m ;; k" := (init_bind m (fun x => k))
  (at level 61, m at next level, right associativity) : init_scope.
Notation "m ;; k" := (init_bind m (fun _ => k))
  (at level 61, right associativity) : init_scope.

(** ** Requests *)

(** The fields each class adds.  [__variable_path] is the current content
    of the list object the field refers to; [_request_size] is the number
    computed once by the constructor. *)
Inductive Variant :=
| NoParams
| Stacktrace (_request_size : Z) (thread_index : Value)
| Step (__thread_index : Value) (__step_type : StepType) (_request_size : Z)
| Variables (__get_child_keys thread_index stack_index __variable_path : Value)
            (_request_size : Z).

Record DebuggerRequest := {
  _debug : Z;
  cmd_code : CmdCode;
  request_id : option Z;
  caller_data : Value;
  variant : Variant
}.

Definition with_variant (r : DebuggerRequest) (v : Variant) : DebuggerRequest :=
  {| _debug := _debug r; cmd_code := cmd_code r; request_id := request_id r;
     caller_data := caller_data r; variant := v |}.

Definition with_request_id (r : DebuggerRequest) (id : option Z)
  : DebuggerRequest :=
  {| _debug := _debug r; cmd_code := cmd_code r; request_id := id;
     caller_data := caller_data r; variant := variant r |}.

(** ** Constructors *)

(** [gMain = sys.modules['__main__'].gMain], with the assignment to the
    module global. *)
Definition load_gMain : Init GMain :=
  fun g =>
    match main_gMain g with
    | Some m => (Ok m, {| main_gMain := main_gMain g; gMain := Some m |})
    | None => (Raise AttributeError, g)
    end.

(** [gMain.gDebugLevel] *)
Definition read_gDebugLevel (m : GMain) : Init Z :=
  match gDebugLevel m with
  | Some lvl => init_ret lvl
  | None => init_raise AttributeError
  end.

Section Constructors.
Local Open Scope init_scope.

(** [DebuggerRequest.__init__]: the fields common to all requests. *)
Definition DebuggerRequest__init__ (cmdCode : CmdCode) (caller_data : Value)
  : Init DebuggerRequest :=
  m <- load_gMain ;;
  lvl <- read_gDebugLevel m ;;
  init_ret {| _debug := Z.max lvl 0;
              cmd_code := cmdCode;
              request_id := None;
              caller_data := caller_data;
              variant := NoParams |}.

Definition _DebuggerRequest_NoParams__init__ (cmd_code : CmdCode)
  (caller_data : Value) : Init DebuggerRequest :=
  DebuggerRequest__init__ cmd_code caller_data.

Definition DebuggerRequest_Continue__init__ : Init DebuggerRequest :=
  _DebuggerRequest_NoParams__init__ CONTINUE (VBool false).

Definition DebuggerRequest_ExitChannel__init__ : Init DebuggerRequest :=
  _DebuggerRequest_NoParams__init__ EXIT_CHANNEL (VBool false).

Definition DebuggerRequest_Stacktrace__init__ (thread_index caller_data : Value)
  : Init DebuggerRequest :=
  self <- DebuggerRequest__init__ STACKTRACE caller_data ;;
  init_ret (with_variant self
              (Stacktrace (NO_PARAMS_REQUEST_SIZE + UINT32_SIZE) thread_index)).

Definition DebuggerRequest_Step__init__ (thread_index step_type : Value)
  : Init DebuggerRequest :=
  match step_type with
  | VStepType st =>                      (* isinstance(step_type, StepType) *)
      self <- _DebuggerRequest_NoParams__init__ STEP VNone ;;
      init_ret (with_variant self
                  (Step thread_index st
                        (NO_PARAMS_REQUEST_SIZE + UINT32_SIZE + UINT8_SIZE)))
  | _ => init_raise AssertionError
  end.

Definition DebuggerRequest_Stop__init__ : Init DebuggerRequest :=
  _DebuggerRequest_NoParams__init__ STOP VNone.

Definition DebuggerRequest_Threads__init__ (caller_data : Value)
  : Init DebuggerRequest :=
  _DebuggerRequest_NoParams__init__ THREADS caller_data.

(** [(index != None) and (int(index) >= 0)] *)
Definition index_is_valid (index : Value) : Res bool :=
  if negb (py_is_None index) then
    match py_int index with
    | Ok n => Ok (n >=? 0)
    | Raise e => Raise e
    end
  else Ok false.

(** [(variable_path == None) or (len(variable_path) >= 0)] *)
Definition path_is_valid (variable_path : Value) : Res bool :=
  if py_is_None variable_path then Ok true
  else
    match py_len variable_path with
    | Ok n => Ok (n >=? 0)
    | Raise e => Raise e
    end.

(** The loop [for elem in path: request_size += len(elem.encode('utf-8')) + 1]. *)
Fixpoint add_path_sizes (path : list str) (request_size : Z) : Res Z :=
  match path with
  | [] => Ok request_size
  | elem :: rest =>
      match encode_utf8 elem with
      | Ok bytes =>
          add_path_sizes rest (request_size + (Z.of_nat (length bytes) + 1))
      | Raise e => Raise e
      end
  end.

Definition DebuggerRequest_Variables__init__
  (thread_index stack_index variable_path get_child_keys caller_data : Value)
  : Init DebuggerRequest :=
  self <- DebuggerRequest__init__ VARIABLES caller_data ;;
  ok_thread <- init_lift (index_is_valid thread_index) ;;
  init_assert ok_thread ;;
  ok_stack <- init_lift (index_is_valid stack_index) ;;
  init_assert ok_stack ;;
  init_assert (py_eq_bool get_child_keys true || py_eq_bool get_child_keys false) ;;
  ok_path <- init_lift (path_is_valid variable_path) ;;
  init_assert ok_path ;;
  let __variable_path :=
    if negb (py_truth variable_path) then VList [] else variable_path in
  let request_size := NO_PARAMS_REQUEST_SIZE + UINT8_SIZE + (3 * UINT32_SIZE) in
  elems <- init_lift (py_iter __variable_path) ;;
  request_size <- init_lift (add_path_sizes elems request_size) ;;
  init_ret (with_variant self
              (Variables get_child_keys thread_index stack_index
                         __variable_path request_size)).

End Constructors.

(** A constructor call, by class. *)
Inductive Ctor :=
| New_NoParams (cmd_code : CmdCode) (caller_data : Value)
| New_Continue
| New_ExitChannel
| New_Stacktrace (thread_index caller_data : Value)
| New_Step (thread_index step_type : Value)
| New_Stop
| New_Threads (caller_data : Value)
| New_Variables (thread_index stack_index variable_path get_child_keys
                 caller_data : Value).

Definition construct (k : Ctor) : Init DebuggerRequest :=
  match k with
  | New_NoParams c d => _DebuggerRequest_NoParams__init__ c d
  | New_Continue => DebuggerRequest_Continue__init__
  | New_ExitChannel => DebuggerRequest_ExitChannel__init__
  | New_Stacktrace t d => DebuggerRequest_Stacktrace__init__ t d
  | New_Step t s => DebuggerRequest_Step__init__ t s
  | New_Stop => DebuggerRequest_Stop__init__
  | New_Threads d => DebuggerRequest_Threads__init__ d
  | New_Variables t s p k d => DebuggerRequest_Variables__init__ t s p k d
  end.

(** ** The debugger client and the effects of [send] *)

(** The operations of the debugger client that requests call.  Each write
    returns the number of bytes it reports as written. *)
Record DebuggerClient (C : Type) := {
  get_next_request_id : C -> Z * C;
  send_uint : Value -> C -> Z * C;
  send_byte : Z -> C -> Z * C;
  send_str : str -> C -> Z * C
}.
Arguments get_next_request_id {C} _ _.
Arguments send_uint {C} _ _ _.
Arguments send_byte {C} _ _ _.
Arguments send_str {C} _ _ _.

(** What a debug [print] shows: the formatted request or header values. *)
Inductive LogLine :=
| debug_send (self : DebuggerRequest)
| debug_send_base_fields (cmd : CmdCode) (packet_size : Z) (requestID : option Z)
| debug_sent_VARIABLES (self : DebuggerRequest).

(** One observable action of a method: a call into the client, with the
    value the client returned, or a line printed. *)
Inductive Event :=
| Call_get_next_request_id (ret : Z)
| Call_send_uint (arg : Value) (ret : Z)
| Call_send_byte (arg : Z) (ret : Z)
| Call_send_str (arg : str) (ret : Z)
| Printed (line : LogLine).

(** The field a client write transmits. *)
Inductive Field :=
| F_uint (v : Value)
| F_byte (n : Z)
| F_str (s : str).

Definition field_of_event (e : Event) : option Field :=
  match e with
  | Call_send_uint v _ => Some (F_uint v)
  | Call_send_byte n _ => Some (F_byte n)
  | Call_send_str s _ => Some (F_str s)
  | Call_get_next_request_id _ | Printed _ => None
  end.

Definition reported_bytes (e : Event) : Z :=
  match e with
  | Call_send_uint _ n | Call_send_byte _ n | Call_send_str _ n => n
  | Call_get_next_request_id _ | Printed _ => 0
  end.

Fixpoint fields_written (evs : list Event) : list Field :=
  match evs with
  | [] => []
  | e :: rest =>
      match field_of_event e with
      | Some f => f :: fields_written rest
      | None => fields_written rest
      end
  end.

(** Total of the byte counts the client reported for its writes. *)
Fixpoint bytes_written (evs : list Event) : Z :=
  match evs with
  | [] => 0
  | e :: rest => reported_bytes e + bytes_written rest
  end.

(** The identifiers handed out by the client, in call order. *)
Fixpoint ids_requested (evs : list Event) : list Z :=
  match evs with
  | [] => []
  | Call_get_next_request_id id :: rest => id :: ids_requested rest
  | _ :: rest => ids_requested rest
  end.

(** The value sent as packet size: the argument of the first write. *)
Definition packet_size_field (evs : list Event) : option Value :=
  match fields_written evs with
  | F_uint v :: _ => Some v
  | _ => None
  end.

Section Send.
Context {C : Type} (dc : DebuggerClient C).

(** The outcome of running a method on a request and a client state: the
    value returned or the exception raised, the request and the client as
    the method left them, and what it did in order. *)
Record Outcome (A : Type) := {
  result : Res A;
  self_after : DebuggerRequest;
  client_after : C;
  events : list Event
}.
Arguments result {A} _.
Arguments self_after {A} _.
Arguments client_after {A} _.
Arguments events {A} _.

Definition M (A : Type) : Type := DebuggerRequest -> C -> Outcome A.

Definition ret {A} (a : A) : M A :=
  fun self c =>
    {| result := Ok a; self_after := self; client_after := c; events := [] |}.

Definition raise {A} (e : Exn) : M A :=
  fun self c =>
    {| result := Raise e; self_after := self; client_after := c; events := [] |}.

Definition bind {A B} (m : M A) (k : A -> M B) : M B :=
  fun self c =>
    match m self c with
    | {| result := Ok a; self_after := self'; client_after := c'; events := evs |} =>
        match k a self' c' with
        | {| result := r; self_after := self''; client_after := c'';
             events := evs' |} =>
            {| result := r; self_after := self''; client_after := c'';
               events := evs ++ evs' |}
        end
    | {| result := Raise e; self_after := self'; client_after := c';
         events := evs |} =>
        {| result := Raise e; self_after := self'; client_after := c';
           events := evs |}
    end.

Notation "x <- m ;; k" := (bind m (fun x => k))
  (at level 61, m at next level, right associativity).
Notation "m ;; k" := (bind m (fun _ => k))
  (at level 61, right associativity).

Definition get_self : M DebuggerRequest :=
  fun self c =>
    {| result := Ok self; self_after := self; client_after := c; events := [] |}.

(** [self.request_id = id] *)
Definition set_request_id (id : Z) : M unit :=
  fun self c =>
    {| result := Ok tt; self_after := with_request_id self (Some id);
       client_after := c; events := [] |}.

Definition print (line : LogLine) : M unit :=
  fun self c =>
    {| result := Ok tt; self_after := self; client_after := c;
       events := [Printed line] |}.

Definition when (b : bool) (m : M unit) : M unit := if b then m else ret tt.

Definition call_get_next_request_id : M Z :=
  fun self c =>
    let reply := get_next_request_id dc c in
    {| result := Ok (fst reply); self_after := self;
       client_after := snd reply;
       events := [Call_get_next_request_id (fst reply)] |}.

Definition call_send_uint (v : Value) : M Z :=
  fun self c =>
    let reply := send_uint dc v c in
    {| result := Ok (fst reply); self_after := self;
       client_after := snd reply;
       events := [Call_send_uint v (fst reply)] |}.

Definition call_send_byte (b : Z) : M Z :=
  fun self c =>
    let reply := send_byte dc b c in
    {| result := Ok (fst reply); self_after := self;
       client_after := snd reply;
       events := [Call_send_byte b (fst reply)] |}.

Definition call_send_str (s : str) : M Z :=
  fun self c =>
    let reply := send_str dc s c in
    {| result := Ok (fst reply); self_after := self;
       client_after := snd reply;
       events := [Call_send_str s (fst reply)] |}.

Definition lift {A} (r : Res A) : M A :=
  match r with
  | Ok a => ret a
  | Raise e => raise e
  end.

(** A request identifier as the Python value of the field. *)
Definition request_id_value (id : option Z) : Value :=
  match id with
  | Some n => VInt n
  | None => VNone
  end.

(** ** Methods *)

(** [__verify_num_written]: raise an exception if the counts don't match;
    return the actual value if it matches expectations. *)
Definition __verify_num_written (expected actual : Z) : M Z :=
  if expected =? actual then ret actual else raise AssertionError.

(** [_send_base_fields]: send the fields common to all requests,
    packetSize, requestID, cmdCode; return the number of bytes written. *)
Definition _send_base_fields (packet_size : Z) : M Z :=
  id <- call_get_next_request_id ;;
  set_request_id id ;;
  self <- get_self ;;
  when (_debug self >=? 5)
       (print (debug_send_base_fields (cmd_code self) packet_size
                                      (request_id self))) ;;
  let count := 0 in
  n <- call_send_uint (VInt packet_size) ;;
  let count := count + n in
  self <- get_self ;;
  n <- call_send_uint (request_id_value (request_id self)) ;;
  let count := count + n in
  self <- get_self ;;
  n <- call_send_uint (VCmdCode (cmd_code self)) ;;
  let count := count + n in
  __verify_num_written NO_PARAMS_REQUEST_SIZE count ;;
  ret count.

(** [_DebuggerRequest_NoParams.send]; returns the number of bytes written. *)
Definition _DebuggerRequest_NoParams_send : M Value :=
  self <- get_self ;;
  when (_debug self >=? 1) (print (debug_send self)) ;;
  count <- _send_base_fields NO_PARAMS_REQUEST_SIZE ;;
  ret (VInt count).

Definition DebuggerRequest_Stacktrace_send (_request_size : Z)
  (thread_index : Value) : M Value :=
  _send_base_fields _request_size ;;
  call_send_uint thread_index ;;
  ret VNone.

Definition DebuggerRequest_Step_send (__thread_index : Value)
  (__step_type : StepType) (_request_size : Z) : M Value :=
  _send_base_fields _request_size ;;
  call_send_uint __thread_index ;;
  call_send_byte (StepType_value __step_type) ;;
  ret VNone.

(** The loop [for elem in path: dc.send_str(elem)]. *)
Fixpoint send_path (path : list str) : M unit :=
  match path with
  | [] => ret tt
  | elem :: rest => call_send_str elem ;; send_path rest
  end.

Definition DebuggerRequest_Variables_send
  (__get_child_keys thread_index stack_index __variable_path : Value)
  (_request_size : Z) : M Value :=
  _send_base_fields _request_size ;;
  let flags := 0 in
  let flags :=
    if py_truth __get_child_keys then Z.lor flags GET_CHILD_KEYS else flags in
  call_send_byte flags ;;
  call_send_uint thread_index ;;
  call_send_uint stack_index ;;
  len <- lift (py_len __variable_path) ;;
  call_send_uint (VInt len) ;;
  elems <- lift (py_iter __variable_path) ;;
  send_path elems ;;
  self <- get_self ;;
  when (_debug self >=? 5) (print (debug_sent_VARIABLES self)) ;;
  ret VNone.

(** [request.send(debugger_client)], dispatched on the class of the request. *)
Definition send : M Value :=
  fun self =>
    match variant self with
    | NoParams => _DebuggerRequest_NoParams_send self
    | Stacktrace size thread_index =>
        DebuggerRequest_Stacktrace_send size thread_index self
    | Step thread_index step_type size =>
        DebuggerRequest_Step_send thread_index step_type size self
    | Variables get_child_keys thread_index stack_index variable_path size =>
        DebuggerRequest_Variables_send get_child_keys thread_index stack_index
                                       variable_path size self
    end.

End Send.

Arguments Outcome : clear implicits.
Arguments M : clear implicits.
Arguments result {C A} _.
Arguments self_after {C A} _.
Arguments client_after {C A} _.
Arguments events {C A} _.

(** The size a request passes to [_send_base_fields] when it is sent. *)
Definition declared_size (r : DebuggerRequest) : Z :=
  match variant r with
  | NoParams => NO_PARAMS_REQUEST_SIZE
  | Stacktrace size _ => size
  | Step _ _ size => size
  | Variables _ _ _ _ size => size
  end.

(** ** A reference client *)

(** Modelled from the spec: the debugger client, whose source is not in
    [DebuggerRequest.py].  It keeps a counter for identifiers and appends
    the bytes it is given to a sink: unsigned 32-bit integers as four bytes,
    least significant first, strings as their UTF-8 form and a terminating
    zero.  [uint_report] is what it reports for a 32-bit write: 4 for a
    client that honours its contract.  It serves the examples; the
    properties hold for every client. *)
Module RefClient.

Record State := { counter : Z; sink : list N }.

Definition uint32_bytes (n : Z) : list N :=
  let w := Z.to_N (n mod 2 ^ 32) in
  [N.land w 0xFF; N.land (N.shiftr w 8) 0xFF;
   N.land (N.shiftr w 16) 0xFF; N.land (N.shiftr w 24) 0xFF].

Definition uint_of (v : Value) : Z :=
  match int_value v with Some n => n | None => 0 end.

Definition client (uint_report : Z) : DebuggerClient State := {|
  get_next_request_id := fun s =>
    (counter s, {| counter := counter s + 1; sink := sink s |});
  send_uint := fun v s =>
    (uint_report,
     {| counter := counter s; sink := sink s ++ uint32_bytes (uint_of v) |});
  send_byte := fun b s =>
    (1, {| counter := counter s; sink := sink s ++ [Z.to_N (b mod 256)] |});
  send_str := fun t s =>
    (utf8_len t + 1,
     {| counter := counter s; sink := sink s ++ utf8_bytes t ++ [0%N] |})
|}.

Definition start : State := {| counter := 1; sink := [] |}.

End RefClient.

(** An interpreter whose main module exposes [gMain.gDebugLevel = lvl]. *)
Definition globals_with_level (lvl : Z) : Globals :=
  {| main_gMain := Some {| gDebugLevel := Some lvl |}; gMain := None |}.

(** ** Notions used to state the properties *)

(** The contract of the client's writes: 4 bytes per unsigned 32-bit
    integer, 1 per byte, the UTF-8 length plus the terminator per string. *)
Definition honours_contract {C} (dc : DebuggerClient C) : Prop :=
  (forall v c, fst (send_uint dc v c) = UINT32_SIZE) /\
  (forall b c, fst (send_byte dc b c) = UINT8_SIZE) /\
  (forall s c, fst (send_str dc s c) = utf8_len s + 1).

(** The part of the contract the header check depends on. *)
Definition uint_writes_report_4 {C} (dc : DebuggerClient C) : Prop :=
  forall v c, fst (send_uint dc v c) = UINT32_SIZE.

(** A string [encode('utf-8')] accepts. *)
Definition encodable (s : str) : bool := negb (existsb is_surrogate s).

(** Bytes the segments of a path take on the wire: for each one its UTF-8
    length and one terminator. *)
Fixpoint path_size (path : list str) : Z :=
  match path with
  | [] => 0
  | elem :: rest => (utf8_len elem + 1) + path_size rest
  end.

(** The path a [variable_path] argument denotes: none for [None]. *)
Definition normalized_path (variable_path : Value) : list str :=
  match variable_path with
  | VList l => l
  | _ => []
  end.

(** The caller's control flow: construct a request, then send it. *)
Record Issued (C : Type) := {
  issued_result : Res Value;
  issued_globals : Globals;
  issued_client : C;
  issued_events : list Event
}.
Arguments issued_result {C} _.
Arguments issued_globals {C} _.
Arguments issued_client {C} _.
Arguments issued_events {C} _.

Definition construct_then_send {C} (dc : DebuggerClient C) (k : Ctor)
  (g : Globals) (c : C) : Issued C :=
  match construct k g with
  | (Ok r, g') =>
      let o := send dc r c in
      {| issued_result := result o; issued_globals := g';
         issued_client := client_after o; issued_events := events o |}
  | (Raise e, g') =>
      {| issued_result := Raise e; issued_globals := g';
         issued_client := c; issued_events := [] |}
  end.

(** Requests sent one after the other on the same client. *)
Fixpoint send_all {C} (dc : DebuggerClient C) (reqs : list DebuggerRequest)
  (c : C) : list (Outcome C Value) :=
  match reqs with
  | [] => []
  | r :: rest =>
      let o := send dc r c in
      o :: send_all dc rest (client_after o)
  end.

(** The identifier each send of a sequence left on its request. *)
Definition assigned_ids {C} (outs : list (Outcome C Value)) : list (option Z) :=
  map (fun o => request_id (self_after o)) outs.

(** Operations on a client, and the identifiers a sequence of them hands
    out from a given state. *)
Inductive ClientOp :=
| Op_get_next_request_id
| Op_send_uint (v : Value)
| Op_send_byte (b : Z)
| Op_send_str (s : str).

Fixpoint run_ops {C} (dc : DebuggerClient C) (ops : list ClientOp) (c : C)
  : list Z * C :=
  match ops with
  | [] => ([], c)
  | Op_get_next_request_id :: rest =>
      let '(id, c') := get_next_request_id dc c in
      let '(ids, c'') := run_ops dc rest c' in
      (id :: ids, c'')
  | Op_send_uint v :: rest => run_ops dc rest (snd (send_uint dc v c))
  | Op_send_byte b :: rest => run_ops dc rest (snd (send_byte dc b c))
  | Op_send_str s :: rest => run_ops dc rest (snd (send_str dc s c))
  end.

(** From state [c] on, whatever else is done with the client, the
    identifiers it hands out are fresh and increase. *)
Definition ids_fresh_and_increasing {C} (dc : DebuggerClient C) (c : C) : Prop :=
  forall ops,
    NoDup (fst (run_ops dc ops c)) /\
    StronglySorted Z.le (fst (run_ops dc ops c)).

Definition op_of_event (e : Event) : option ClientOp :=
  match e with
  | Call_get_next_request_id _ => Some Op_get_next_request_id
  | Call_send_uint v _ => Some (Op_send_uint v)
  | Call_send_byte b _ => Some (Op_send_byte b)
  | Call_send_str s _ => Some (Op_send_str s)
  | Printed _ => None
  end.

Fixpoint ops_of_events (evs : list Event) : list ClientOp :=
  match evs with
  | [] => []
  | e :: rest =>
      match op_of_event e with
      | Some op => op :: ops_of_events rest
      | None => ops_of_events rest
      end
  end.

(** A method whose recorded calls, replayed on the client, give the
    identifiers it recorded and the client state it ended in. *)
Definition faithful {C A} (dc : DebuggerClient C) (m : M C A) : Prop :=
  forall self c,
    run_ops dc (ops_of_events (events (m self c))) c
    = (ids_requested (events (m self c)), client_after (m self c)).

(** A method that does not assign to the request and asks the client for
    no identifier. *)
Definition keeps_self {C A} (m : M C A) : Prop :=
  forall self c,
    self_after (m self c) = self /\ ids_requested (events (m self c)) = [].

(** The declared size of a request matches its payload: 4 bytes after the
    header for a stack trace, 4 and 1 for a step, and for variables 1, 4, 4
    and 4 and then the segments of the stored path, which is a list. *)
Definition well_sized (r : DebuggerRequest) : Prop :=
  match variant r with
  | NoParams => True
  | Stacktrace size _ => size = NO_PARAMS_REQUEST_SIZE + UINT32_SIZE
  | Step _ _ size => size = NO_PARAMS_REQUEST_SIZE + UINT32_SIZE + UINT8_SIZE
  | Variables _ _ _ variable_path size =>
      exists path,
        variable_path = VList path /\
        size = NO_PARAMS_REQUEST_SIZE + UINT8_SIZE + 3 * UINT32_SIZE
               + path_size path
  end.

(** The flags byte of a variables request. *)
Definition flags_byte (get_child_keys : Value) : Z :=
  if py_truth get_child_keys then Z.lor 0 GET_CHILD_KEYS else 0.

(** Paths used in the examples: ["a", "b"], and three segments with
    two-, three- and four-byte characters (U+00E9 in "cafe" with an acute
    accent, U+20AC, U+1F600). *)
Definition path_a_b : list str := [[0x61%N]; [0x62%N]].
Definition path_multibyte : list str :=
  [[0x63%N; 0x61%N; 0x66%N; 0xE9%N]; [0x20AC%N]; [0x1F600%N]].

(** [send] in three parts: what a method does before the header, the header,
    and what it does with the header's count afterwards. *)
Section Parts.
Context {C : Type} (dc : DebuggerClient C).

Definition prologue (r : DebuggerRequest) : M C unit :=
  match variant r with
  | NoParams => when (_debug r >=? 1) (print (debug_send r))
  | _ => ret tt
  end.

Definition payload (r : DebuggerRequest) (count : Z) : M C Value :=
  match variant r with
  | NoParams => ret (VInt count)
  | Stacktrace _ thread_index =>
      bind (call_send_uint dc thread_index) (fun _ => ret VNone)
  | Step thread_index step_type _ =>
      bind (call_send_uint dc thread_index) (fun _ =>
      bind (call_send_byte dc (StepType_value step_type)) (fun _ =>
      ret VNone))
  | Variables get_child_keys thread_index stack_index variable_path _ =>
      let flags :=
        if py_truth get_child_keys then Z.lor 0 GET_CHILD_KEYS else 0 in
      bind (call_send_byte dc flags) (fun _ =>
      bind (call_send_uint dc thread_index) (fun _ =>
      bind (call_send_uint dc stack_index) (fun _ =>
      bind (lift (py_len variable_path)) (fun len =>
      bind (call_send_uint dc (VInt len)) (fun _ =>
      bind (lift (py_iter variable_path)) (fun elems =>
      bind (send_path dc elems) (fun _ =>
      bind get_self (fun self =>
      bind (when (_debug self >=? 5) (print (debug_sent_VARIABLES self)))
           (fun _ => ret VNone)))))))))
  end.

Definition send_in_parts (r : DebuggerRequest) : M C Value :=
  bind (prologue r) (fun _ =>
  bind (_send_base_fields dc (declared_size r)) (fun count =>
  payload r count)).

End Parts.


(** ** The list a variables request shares with its caller *)


(** The request as [send] finds it when the list that was passed as
    [variable_path] holds [now] at that time.  A list that was not empty is
    stored as it is ([self.__variable_path = variable_path]), so the request
    sees what the caller has made of it; [None] and the empty list were
    replaced by a list of the request's own ([self.__variable_path = []]),
    which the caller does not reach.  The size field keeps the value
    computed by the constructor. *)
Definition with_caller_list (variable_path : Value) (now : list str)
  (r : DebuggerRequest) : DebuggerRequest :=
  if py_truth variable_path then
    match variant r with
    | Variables get_child_keys thread_index stack_index _ size =>
        with_variant r
          (Variables get_child_keys thread_index stack_index (VList now) size)
    | _ => r
    end
  else r.

(** ** Notions used for the remaining classes *)

(** The command code each class hands to [DebuggerRequest.__init__]. *)
Definition class_cmd_code (k : Ctor) : CmdCode :=
  match k with
  | New_NoParams c _ => c
  | New_Continue => CONTINUE
  | New_ExitChannel => EXIT_CHANNEL
  | New_Stacktrace _ _ => STACKTRACE
  | New_Step _ _ => STEP
  | New_Stop => STOP
  | New_Threads _ => THREADS
  | New_Variables _ _ _ _ _ => VARIABLES
  end.

(** What [send] returns when it returns: the header count for the classes
    that inherit [_DebuggerRequest_NoParams.send], [None] for the others. *)
Definition send_return_value (r : DebuggerRequest) : Value :=
  match variant r with
  | NoParams => VInt NO_PARAMS_REQUEST_SIZE
  | _ => VNone
  end.

(** The three header fields, for a given identifier. *)
Definition header_fields (r : DebuggerRequest) (id : Z) : list Field :=
  [F_uint (VInt (declared_size r)); F_uint (VInt id);
   F_uint (VCmdCode (cmd_code r))].

(** An index the variables constructor accepts: an integer (a boolean or an
    enumeration member counts) that is not negative. *)
Definition nonnegative_int (v : Value) : Prop :=
  exists n, int_value v = Some n /\ 0 <= n.

(** A flag the variables constructor accepts: a value equal to [True] or
    to [False]. *)
Definition boolean_like (v : Value) : Prop :=
  int_value v = Some 1 \/ int_value v = Some 0.

(** Upper bound of [path_size]: four bytes per character and a terminator. *)
Fixpoint path_size_max (path : list str) : Z :=
  match path with
  | [] => 0
  | elem :: rest => (4 * Z.of_nat (length elem) + 1) + path_size_max rest
  end.

(** Lower bound of [path_size]: one byte per character and a terminator. *)
Fixpoint path_size_min (path : list str) : Z :=
  match path with
  | [] => 0
  | elem :: rest => (Z.of_nat (length elem) + 1) + path_size_min rest
  end.

Definition is_ascii (s : str) : bool := forallb (fun c => (c <? 0x80)%N) s.

(** Modelled from the spec: a debugger client that writes like the
    reference one but reports 0 bytes for every byte and string write. *)
Definition careless_client : DebuggerClient RefClient.State := {|
  get_next_request_id := get_next_request_id (RefClient.client 4);
  send_uint := send_uint (RefClient.client 4);
  send_byte := fun b s => (0, snd (send_byte (RefClient.client 4) b s));
  send_str := fun t s => (0, snd (send_str (RefClient.client 4) t s))
|}.


(** * Properties *)

(** ** Traces *)

Lemma fields_written_app (a b : list Event) :
  fields_written (a ++ b) = fields_written a ++ fields_written b.
Proof.
  induction a as [|e a IH]; simpl; [reflexivity|].
  destruct (field_of_event e); simpl; now rewrite IH.
Qed.

Lemma bytes_written_app (a b : list Event) :
  bytes_written (a ++ b) = bytes_written a + bytes_written b.
Proof.
  induction a as [|e a IH]; simpl; [reflexivity|]. rewrite IH. lia.
Qed.

Lemma ids_requested_app (a b : list Event) :
  ids_requested (a ++ b) = ids_requested a ++ ids_requested b.
Proof.
  induction a as [|e a IH]; simpl; [reflexivity|].
  destruct e; simpl; now rewrite IH.
Qed.

Lemma ops_of_events_app (a b : list Event) :
  ops_of_events (a ++ b) = ops_of_events a ++ ops_of_events b.
Proof.
  induction a as [|e a IH]; simpl; [reflexivity|].
  destruct (op_of_event e); simpl; now rewrite IH.
Qed.

(** ** [send] as prologue, header and payload *)

Section Composition.
Context {C : Type} (dc : DebuggerClient C).

Lemma result_bind {A B} (m : M C A) (k : A -> M C B) self c :
  result (bind m k self c) =
  match result (m self c) with
  | Ok a => result (k a (self_after (m self c)) (client_after (m self c)))
  | Raise e => Raise e
  end.
Proof. unfold bind. destruct (m self c) as [[a|e] s c' evs]; cbn; [|reflexivity]. now destruct (k a s c'). Qed.

Lemma events_bind {A B} (m : M C A) (k : A -> M C B) self c :
  events (bind m k self c) =
  events (m self c) ++
  match result (m self c) with
  | Ok a => events (k a (self_after (m self c)) (client_after (m self c)))
  | Raise _ => []
  end.
Proof.
  unfold bind. destruct (m self c) as [[a|e] s c' evs]; cbn.
  - now destruct (k a s c').
  - now rewrite app_nil_r.
Qed.

Lemma self_after_bind {A B} (m : M C A) (k : A -> M C B) self c :
  self_after (bind m k self c) =
  match result (m self c) with
  | Ok a => self_after (k a (self_after (m self c)) (client_after (m self c)))
  | Raise _ => self_after (m self c)
  end.
Proof. unfold bind. destruct (m self c) as [[a|e] s c' evs]; cbn; [|reflexivity]. now destruct (k a s c'). Qed.

Lemma client_after_bind {A B} (m : M C A) (k : A -> M C B) self c :
  client_after (bind m k self c) =
  match result (m self c) with
  | Ok a => client_after (k a (self_after (m self c)) (client_after (m self c)))
  | Raise _ => client_after (m self c)
  end.
Proof. unfold bind. destruct (m self c) as [[a|e] s c' evs]; cbn; [|reflexivity]. now destruct (k a s c'). Qed.

(** The prologue only prints. *)
Lemma prologue_run (r self : DebuggerRequest) (c : C) :
  prologue r self c =
  {| result := Ok tt; self_after := self; client_after := c;
     events := match variant r with
               | NoParams =>
                   if _debug r >=? 1 then [Printed (debug_send r)] else []
               | _ => []
               end |}.
Proof.
  unfold prologue, when. destruct (variant r); try reflexivity.
  destruct (_debug r >=? 1); reflexivity.
Qed.

Lemma bind_ret_l {A B} (a : A) (k : A -> M C B) self c :
  bind (ret a) k self c = k a self c.
Proof. unfold bind, ret. now destruct (k a self c). Qed.

Lemma bind_get_self {B} (k : DebuggerRequest -> M C B) self c :
  bind get_self k self c = k self self c.
Proof. unfold bind, get_self. now destruct (k self self c). Qed.

Lemma send_is_send_in_parts (self : DebuggerRequest) (c : C) :
  send dc self c = send_in_parts dc self self c.
Proof.
  unfold send, send_in_parts, prologue, payload, declared_size.
  destruct (variant self).
  - unfold _DebuggerRequest_NoParams_send. now rewrite bind_get_self.
  - unfold DebuggerRequest_Stacktrace_send. now rewrite bind_ret_l.
  - unfold DebuggerRequest_Step_send. now rewrite bind_ret_l.
  - unfold DebuggerRequest_Variables_send. now rewrite bind_ret_l.
Qed.

End Composition.

Section HeaderFacts.
Context {C : Type} (dc : DebuggerClient C).

Lemma header_facts (packet_size : Z) (self : DebuggerRequest) (c : C) :
  exists id n1 n2 n3 c1 c2 c3 c4,
    get_next_request_id dc c = (id, c1) /\
    send_uint dc (VInt packet_size) c1 = (n1, c2) /\
    send_uint dc (VInt id) c2 = (n2, c3) /\
    send_uint dc (VCmdCode (cmd_code self)) c3 = (n3, c4) /\
    _send_base_fields dc packet_size self c =
    {| result := if NO_PARAMS_REQUEST_SIZE =? n1 + n2 + n3
                 then Ok (n1 + n2 + n3) else Raise AssertionError;
       self_after := with_request_id self (Some id);
       client_after := c4;
       events :=
         Call_get_next_request_id id
         :: (if _debug self >=? 5
             then [Printed (debug_send_base_fields (cmd_code self) packet_size
                                                   (Some id))]
             else [])
         ++ [Call_send_uint (VInt packet_size) n1;
             Call_send_uint (VInt id) n2;
             Call_send_uint (VCmdCode (cmd_code self)) n3] |}.
Proof.
  destruct (get_next_request_id dc c) as [id c1] eqn:E0.
  destruct (send_uint dc (VInt packet_size) c1) as [n1 c2] eqn:E1.
  destruct (send_uint dc (VInt id) c2) as [n2 c3] eqn:E2.
  destruct (send_uint dc (VCmdCode (cmd_code self)) c3) as [n3 c4] eqn:E3.
  exists id, n1, n2, n3, c1, c2, c3, c4.
  do 4 (split; [first [reflexivity | assumption]|]).
  unfold _send_base_fields, bind, call_get_next_request_id, set_request_id,
    get_self, when, call_send_uint, __verify_num_written, print, ret, raise.
  rewrite E0. cbn [fst snd with_request_id request_id cmd_code _debug].
  destruct (_debug self >=? 5); cbn -[Z.eqb]; rewrite E1; cbn -[Z.eqb];
    rewrite E2; cbn -[Z.eqb]; rewrite E3; cbn -[Z.eqb];
    change NO_PARAMS_REQUEST_SIZE with 12;
    destruct (12 =? n1 + n2 + n3); reflexivity.
Qed.

(** What the header leaves behind, read off its trace. *)
Lemma header_summary (packet_size : Z) (self : DebuggerRequest) (c : C) :
  let h := _send_base_fields dc packet_size self c in
  exists id,
    ids_requested (events h) = [id] /\
    self_after h = with_request_id self (Some id) /\
    fields_written (events h) =
      [F_uint (VInt packet_size); F_uint (VInt id);
       F_uint (VCmdCode (cmd_code self))] /\
    result h = (if bytes_written (events h) =? 12
                then Ok 12 else Raise AssertionError).
Proof.
  destruct (header_facts packet_size self c)
    as (id & n1 & n2 & n3 & c1 & c2 & c3 & c4 & _ & _ & _ & _ & Hh).
  cbv zeta. rewrite Hh. cbn [events self_after result].
  exists id.
  destruct (_debug self >=? 5); cbn [app ids_requested fields_written
    field_of_event bytes_written reported_bytes];
    (repeat split; try reflexivity);
    match goal with
    | |- context [?x =? 12] => replace x with (n1 + n2 + n3) by lia
    end;
    change NO_PARAMS_REQUEST_SIZE with 12; rewrite (Z.eqb_sym 12);
    destruct (Z.eqb_spec (n1 + n2 + n3) 12) as [->|]; reflexivity.
Qed.

(** Every [send] runs the header once, after at most a debug line, and
    stops there when the header raises. *)
Lemma send_runs_header (r : DebuggerRequest) (c : C) :
  let h := _send_base_fields dc (declared_size r) r c in
  let o := send dc r c in
  exists printed rest,
    events o = printed ++ events h ++ rest /\
    ops_of_events printed = [] /\
    fields_written printed = [] /\
    bytes_written printed = 0 /\
    (forall e, result h = Raise e -> rest = [] /\ result o = Raise e) /\
    (forall n, result h = Ok n ->
       rest = events (payload dc r n (self_after h) (client_after h)) /\
       result o = result (payload dc r n (self_after h) (client_after h))).
Proof.
  cbv zeta. rewrite send_is_send_in_parts. unfold send_in_parts.
  rewrite events_bind, result_bind, prologue_run.
  cbn [result self_after client_after events].
  rewrite events_bind, result_bind.
  set (h := _send_base_fields dc (declared_size r) r c).
  eexists _, _. split; [reflexivity|].
  split; [|split; [|split; [|split]]].
  - destruct (variant r); try reflexivity.
    destruct (_debug r >=? 1); reflexivity.
  - destruct (variant r); try reflexivity.
    destruct (_debug r >=? 1); reflexivity.
  - destruct (variant r); try reflexivity.
    destruct (_debug r >=? 1); reflexivity.
  - intros e He. rewrite He. split; reflexivity.
  - intros n Hn. rewrite Hn. split; reflexivity.
Qed.

(** C4. The shared header routine asks the client for the next identifier
    exactly once and stores it on the request; it writes packet size,
    request identifier and command code, in that order, as unsigned 32-bit
    integers; then it checks the reported byte count: with 12 it returns 12,
    with anything else it raises [AssertionError].  Every [send] starts with
    it and does nothing more when it raises. *)
Theorem header_written_then_verified
  (packet_size : Z) (self : DebuggerRequest) (c : C) :
  let h := _send_base_fields dc packet_size self c in
  (exists id,
     ids_requested (events h) = [id] /\
     request_id (self_after h) = Some id /\
     self_after h = with_request_id self (Some id) /\
     fields_written (events h) =
       [F_uint (VInt packet_size); F_uint (VInt id);
        F_uint (VCmdCode (cmd_code self))] /\
     result h = (if bytes_written (events h) =? 12
                 then Ok 12 else Raise AssertionError)) /\
  (forall r c',
     let h' := _send_base_fields dc (declared_size r) r c' in
     exists printed rest,
       events (send dc r c') = printed ++ events h' ++ rest /\
       ops_of_events printed = [] /\
       (forall e, result h' = Raise e ->
          rest = [] /\ result (send dc r c') = Raise e)).
Proof.
  cbv zeta. split.
  - destruct (header_summary packet_size self c) as (id & H1 & H2 & H3 & H4).
    exists id. split; [exact H1|]. split; [now rewrite H2|].
    split; [exact H2|]. split; [exact H3|exact H4].
  - intros r c'.
    destruct (send_runs_header r c') as (p & q & H1 & H2 & _ & _ & H3 & _).
    exists p, q. split; [exact H1|]. split; [exact H2|exact H3].
Qed.

End HeaderFacts.

(** ** What methods leave untouched, and replaying their calls *)

Section Closure.
Context {C : Type} (dc : DebuggerClient C).

Lemma keeps_self_ret {A} (a : A) : keeps_self (@ret C A a).
Proof. intros self c; split; reflexivity. Qed.

Lemma keeps_self_raise {A} (e : Exn) : keeps_self (@raise C A e).
Proof. intros self c; split; reflexivity. Qed.

Lemma keeps_self_lift {A} (r : Res A) : keeps_self (@lift C A r).
Proof. destruct r; intros self c; split; reflexivity. Qed.

Lemma keeps_self_get_self : keeps_self (@get_self C).
Proof. intros self c; split; reflexivity. Qed.

Lemma keeps_self_print line : keeps_self (@print C line).
Proof. intros self c; split; reflexivity. Qed.

Lemma keeps_self_when b (m : M C unit) : keeps_self m -> keeps_self (when b m).
Proof. destruct b; intro H; [exact H | apply keeps_self_ret]. Qed.

Lemma keeps_self_call_send_uint v : keeps_self (call_send_uint dc v).
Proof. intros self c; split; reflexivity. Qed.

Lemma keeps_self_call_send_byte b : keeps_self (call_send_byte dc b).
Proof. intros self c; split; reflexivity. Qed.

Lemma keeps_self_call_send_str s : keeps_self (call_send_str dc s).
Proof. intros self c; split; reflexivity. Qed.

Lemma keeps_self_bind {A B} (m : M C A) (k : A -> M C B) :
  keeps_self m -> (forall a, keeps_self (k a)) -> keeps_self (bind m k).
Proof.
  intros Hm Hk self c. rewrite self_after_bind, events_bind, ids_requested_app.
  destruct (Hm self c) as [Hs Hi]. rewrite Hi, Hs.
  destruct (result (m self c)) as [a|e]; [|split; reflexivity].
  destruct (Hk a self (client_after (m self c))) as [Hs' Hi'].
  rewrite Hi'. split; [exact Hs' | reflexivity].
Qed.

Lemma keeps_self_send_path path : keeps_self (send_path dc path).
Proof.
  induction path as [|s path IH]; cbn [send_path].
  - apply keeps_self_ret.
  - apply keeps_self_bind; [apply keeps_self_call_send_str | intros _; exact IH].
Qed.

Lemma keeps_self_payload r n : keeps_self (payload dc r n).
Proof.
  unfold payload. destruct (variant r);
    repeat first
      [ apply keeps_self_ret | apply keeps_self_lift | apply keeps_self_get_self
      | apply keeps_self_print | apply keeps_self_when
      | apply keeps_self_call_send_uint | apply keeps_self_call_send_byte
      | apply keeps_self_send_path
      | apply keeps_self_bind; [|intros ?] ].
Qed.

Lemma run_ops_app (a b : list ClientOp) (c : C) :
  run_ops dc (a ++ b) c =
  (fst (run_ops dc a c) ++ fst (run_ops dc b (snd (run_ops dc a c))),
   snd (run_ops dc b (snd (run_ops dc a c)))).
Proof.
  revert c. induction a as [|op a IH]; intros c; cbn [app run_ops].
  - cbn. now destruct (run_ops dc b c).
  - destruct op; try apply IH.
    destruct (get_next_request_id dc c) as [id c'].
    rewrite IH. destruct (run_ops dc a c') as [ids c'']. reflexivity.
Qed.

Lemma faithful_ret {A} (a : A) : faithful dc (ret a).
Proof. intros self c; reflexivity. Qed.

Lemma faithful_raise {A} (e : Exn) : faithful dc (@raise C A e).
Proof. intros self c; reflexivity. Qed.

Lemma faithful_lift {A} (r : Res A) : faithful dc (@lift C A r).
Proof. destruct r; intros self c; reflexivity. Qed.

Lemma faithful_get_self : faithful dc (@get_self C).
Proof. intros self c; reflexivity. Qed.

Lemma faithful_set_request_id id : faithful dc (@set_request_id C id).
Proof. intros self c; reflexivity. Qed.

Lemma faithful_print line : faithful dc (@print C line).
Proof. intros self c; reflexivity. Qed.

Lemma faithful_when b (m : M C unit) : faithful dc m -> faithful dc (when b m).
Proof. destruct b; intro H; [exact H | apply faithful_ret]. Qed.

Lemma faithful_call_get_next_request_id : faithful dc (call_get_next_request_id dc).
Proof.
  intros self c. unfold call_get_next_request_id. cbn.
  now destruct (get_next_request_id dc c).
Qed.

Lemma faithful_call_send_uint v : faithful dc (call_send_uint dc v).
Proof.
  intros self c. reflexivity.
Qed.

Lemma faithful_call_send_byte b : faithful dc (call_send_byte dc b).
Proof.
  intros self c. reflexivity.
Qed.

Lemma faithful_call_send_str s : faithful dc (call_send_str dc s).
Proof.
  intros self c. reflexivity.
Qed.

Lemma faithful_bind {A B} (m : M C A) (k : A -> M C B) :
  faithful dc m -> (forall a, faithful dc (k a)) -> faithful dc (bind m k).
Proof.
  intros Hm Hk self c.
  rewrite events_bind, client_after_bind, ops_of_events_app, ids_requested_app,
    run_ops_app, Hm. cbn [fst snd].
  destruct (result (m self c)) as [a|e].
  - now rewrite Hk.
  - cbn. reflexivity.
Qed.

Lemma faithful_send_path path : faithful dc (send_path dc path).
Proof.
  induction path as [|s path IH]; cbn [send_path].
  - apply faithful_ret.
  - apply faithful_bind; [apply faithful_call_send_str | intros _; exact IH].
Qed.

Ltac faithful_steps :=
  repeat first
    [ apply faithful_ret | apply faithful_raise | apply faithful_lift
    | apply faithful_get_self | apply faithful_set_request_id
    | apply faithful_print | apply faithful_when
    | apply faithful_call_get_next_request_id
    | apply faithful_call_send_uint | apply faithful_call_send_byte
    | apply faithful_send_path
    | apply faithful_bind; [|intros ?] ].

Lemma faithful__send_base_fields packet_size :
  faithful dc (_send_base_fields dc packet_size).
Proof.
  unfold _send_base_fields, __verify_num_written. faithful_steps.
  destruct (NO_PARAMS_REQUEST_SIZE =? _); faithful_steps.
Qed.

Lemma faithful_send : faithful dc (send dc).
Proof.
  intros self c. rewrite send_is_send_in_parts.
  revert c. generalize self at 1 3 5 as s. revert self.
  enough (H : forall r, faithful dc (send_in_parts dc r))
    by (intros self s c; apply H).
  intro r. unfold send_in_parts. apply faithful_bind.
  - unfold prologue. destruct (variant r); faithful_steps.
  - intros _. apply faithful_bind; [apply faithful__send_base_fields|].
    intro n. unfold payload. destruct (variant r); faithful_steps.
Qed.

End Closure.

(** ** UTF-8 sizes *)

Lemma utf8_code_point_length (c : N) :
  length (utf8_code_point c) =
  if (c <? 0x80)%N then 1%nat
  else if (c <? 0x800)%N then 2%nat
  else if (c <? 0x10000)%N then 3%nat
  else 4%nat.
Proof.
  unfold utf8_code_point.
  destruct (c <? 0x80)%N; [reflexivity|].
  destruct (c <? 0x800)%N; [reflexivity|].
  destruct (c <? 0x10000)%N; reflexivity.
Qed.

(** One byte per character for ASCII text. *)
Lemma utf8_len_ascii (s : str) :
  forallb (fun c => (c <? 0x80)%N) s = true ->
  utf8_len s = Z.of_nat (length s).
Proof.
  unfold utf8_len, utf8_bytes. induction s as [|c s IH]; [reflexivity|].
  cbn [forallb flat_map]. intro H. apply andb_prop in H as [Hc Hs].
  rewrite length_app, utf8_code_point_length, Hc. cbn [length Nat.add].
  rewrite !Nat2Z.inj_succ, IH by exact Hs. reflexivity.
Qed.

Lemma encode_utf8_encodable (s : str) :
  encode_utf8 s = if encodable s then Ok (utf8_bytes s)
                  else Raise UnicodeEncodeError.
Proof. unfold encode_utf8, encodable. now destruct (existsb is_surrogate s). Qed.

Example utf8_e_acute : encode_utf8 [0xE9%N] = Ok [0xC3%N; 0xA9%N].
Proof. reflexivity. Qed.

Example utf8_euro_sign : encode_utf8 [0x20AC%N] = Ok [0xE2%N; 0x82%N; 0xAC%N].
Proof. reflexivity. Qed.

Example utf8_grinning_face :
  encode_utf8 [0x1F600%N] = Ok [0xF0%N; 0x9F%N; 0x98%N; 0x80%N].
Proof. reflexivity. Qed.

Example utf8_lone_surrogate : encode_utf8 [0xD800%N] = Raise UnicodeEncodeError.
Proof. reflexivity. Qed.

(** The size loop adds exactly [path_size], or stops at the first segment
    that cannot be encoded. *)
Lemma add_path_sizes_run (path : list str) (request_size : Z) :
  add_path_sizes path request_size =
  if forallb encodable path then Ok (request_size + path_size path)
  else Raise UnicodeEncodeError.
Proof.
  revert request_size. induction path as [|elem rest IH]; intro acc.
  - cbn. f_equal. lia.
  - cbn [add_path_sizes forallb path_size].
    rewrite encode_utf8_encodable. destruct (encodable elem); cbn [andb].
    + rewrite IH. unfold utf8_len.
      destruct (forallb encodable rest); [f_equal; lia | reflexivity].
    + reflexivity.
Qed.

(** ** Constructors *)

Lemma DebuggerRequest__init__run (cmd : CmdCode) (cd : Value) (g : Globals) :
  DebuggerRequest__init__ cmd cd g =
  match main_gMain g with
  | None => (Raise AttributeError, g)
  | Some m =>
      let g' := {| main_gMain := main_gMain g; gMain := Some m |} in
      match gDebugLevel m with
      | None => (Raise AttributeError, g')
      | Some lvl =>
          (Ok {| _debug := Z.max lvl 0; cmd_code := cmd; request_id := None;
                 caller_data := cd; variant := NoParams |}, g')
      end
  end.
Proof.
  unfold DebuggerRequest__init__, init_bind, load_gMain, read_gDebugLevel.
  destruct (main_gMain g) as [m|]; [|reflexivity].
  destruct (gDebugLevel m); reflexivity.
Qed.

(** The path a variables request stores is the normalized one. *)
Lemma stored_path_normalized (variable_path : Value) :
  variable_path = VNone \/ (exists l, variable_path = VList l) ->
  (if negb (py_truth variable_path) then VList [] else variable_path)
  = VList (normalized_path variable_path).
Proof.
  intros [->|[l ->]]; [reflexivity|]. now destruct l.
Qed.

Lemma path_is_valid_inv (variable_path : Value) :
  path_is_valid variable_path = Ok true ->
  variable_path = VNone \/ (exists l, variable_path = VList l).
Proof.
  destruct variable_path; cbn; try discriminate; eauto.
Qed.

Lemma path_is_valid_total (variable_path : Value) :
  variable_path = VNone \/ (exists l, variable_path = VList l) ->
  path_is_valid variable_path = Ok true.
Proof.
  intros [->|[l ->]]; [reflexivity|].
  unfold path_is_valid. cbn. f_equal. apply Z.geb_le. lia.
Qed.

(** When the variables constructor returns a request. *)
Lemma DebuggerRequest_Variables__init__inv
  (ti si vp gck cd : Value) (g g' : Globals) (r : DebuggerRequest) :
  DebuggerRequest_Variables__init__ ti si vp gck cd g = (Ok r, g') ->
  exists m lvl,
    main_gMain g = Some m /\ gDebugLevel m = Some lvl /\
    index_is_valid ti = Ok true /\ index_is_valid si = Ok true /\
    (py_eq_bool gck true || py_eq_bool gck false) = true /\
    (vp = VNone \/ exists l, vp = VList l) /\
    forallb encodable (normalized_path vp) = true /\
    r = {| _debug := Z.max lvl 0; cmd_code := VARIABLES; request_id := None;
           caller_data := cd;
           variant := Variables gck ti si (VList (normalized_path vp))
                        (NO_PARAMS_REQUEST_SIZE + UINT8_SIZE + 3 * UINT32_SIZE
                         + path_size (normalized_path vp)) |} /\
    g' = {| main_gMain := main_gMain g; gMain := Some m |}.
Proof.
  unfold DebuggerRequest_Variables__init__, init_bind.
  rewrite DebuggerRequest__init__run.
  destruct (main_gMain g) as [m|]; [|discriminate].
  destruct (gDebugLevel m) as [lvl|] eqn:Hl; [|discriminate]. cbv zeta.
  unfold init_lift, init_assert, init_ret, init_raise.
  destruct (index_is_valid ti) as [[|]|]; try discriminate.
  destruct (index_is_valid si) as [[|]|]; try discriminate.
  destruct (py_eq_bool gck true || py_eq_bool gck false); [|discriminate].
  destruct (path_is_valid vp) as [[|]|] eqn:Hp; try discriminate.
  apply path_is_valid_inv in Hp.
  rewrite (stored_path_normalized vp Hp). cbn [py_iter].
  rewrite add_path_sizes_run.
  destruct (forallb encodable (normalized_path vp)); [|discriminate].
  intro H. injection H as <- <-.
  exists m, lvl. repeat split; auto; reflexivity.
Qed.

(** When it does: valid indices, a boolean flag, a path that is [None] or
    a list of encodable strings, and the debug level in the main module. *)
Lemma DebuggerRequest_Variables__init__total
  (ti si vp gck cd : Value) (g : Globals) (m : GMain) (lvl : Z) :
  main_gMain g = Some m -> gDebugLevel m = Some lvl ->
  index_is_valid ti = Ok true -> index_is_valid si = Ok true ->
  (py_eq_bool gck true || py_eq_bool gck false) = true ->
  (vp = VNone \/ exists l, vp = VList l) ->
  DebuggerRequest_Variables__init__ ti si vp gck cd g =
  let g' := {| main_gMain := main_gMain g; gMain := Some m |} in
  if forallb encodable (normalized_path vp) then
    (Ok {| _debug := Z.max lvl 0; cmd_code := VARIABLES; request_id := None;
           caller_data := cd;
           variant := Variables gck ti si (VList (normalized_path vp))
                        (NO_PARAMS_REQUEST_SIZE + UINT8_SIZE + 3 * UINT32_SIZE
                         + path_size (normalized_path vp)) |}, g')
  else (Raise UnicodeEncodeError, g').
Proof.
  intros Hm Hl Hti Hsi Hk Hp.
  unfold DebuggerRequest_Variables__init__, init_bind.
  rewrite DebuggerRequest__init__run, Hm, Hl. cbv zeta.
  unfold init_lift, init_assert, init_ret, init_raise.
  rewrite Hti, Hsi, Hk, (path_is_valid_total vp Hp).
  rewrite (stored_path_normalized vp Hp). cbn [py_iter].
  rewrite add_path_sizes_run.
  now destruct (forallb encodable (normalized_path vp)).
Qed.

(** Every constructed request declares the size of what it will send. *)
Lemma construct_well_sized (k : Ctor) (g g' : Globals) (r : DebuggerRequest) :
  construct k g = (Ok r, g') -> well_sized r.
Proof.
  destruct k; cbn [construct];
    unfold _DebuggerRequest_NoParams__init__, DebuggerRequest_Continue__init__,
      DebuggerRequest_ExitChannel__init__, DebuggerRequest_Stop__init__,
      DebuggerRequest_Threads__init__, DebuggerRequest_Stacktrace__init__,
      DebuggerRequest_Step__init__, _DebuggerRequest_NoParams__init__,
      init_bind, init_ret, init_raise;
    try (rewrite DebuggerRequest__init__run;
         destruct (main_gMain g) as [m|]; [|discriminate];
         destruct (gDebugLevel m); [|discriminate];
         intro H; injection H as <- <-; now cbv).
  - destruct step_type; try discriminate.
    rewrite DebuggerRequest__init__run.
    destruct (main_gMain g) as [m|]; [|discriminate].
    destruct (gDebugLevel m); [|discriminate].
    intro H; injection H as <- <-. now cbv.
  - intro H. apply DebuggerRequest_Variables__init__inv in H
      as (m & lvl & _ & _ & _ & _ & _ & _ & _ & -> & _).
    unfold well_sized. cbn [variant]. eauto.
Qed.

(** ** Payloads *)

Section Payloads.
Context {C : Type} (dc : DebuggerClient C).

(** The segment loop writes every segment, in order, and nothing else. *)
Lemma send_path_run (path : list str) (self : DebuggerRequest) (c : C) :
  let o := send_path dc path self c in
  result o = Ok tt /\
  self_after o = self /\
  fields_written (events o) = map F_str path /\
  ids_requested (events o) = [] /\
  ((forall s c', fst (send_str dc s c') = utf8_len s + 1) ->
   bytes_written (events o) = path_size path).
Proof.
  cbv zeta. revert c. induction path as [|elem rest IH]; intro c.
  - cbn. repeat split; reflexivity.
  - cbn [send_path].
    rewrite result_bind, self_after_bind, events_bind.
    cbn [call_send_str result self_after client_after events].
    destruct (IH (snd (send_str dc elem c))) as (H1 & H2 & H3 & H4 & H5).
    rewrite H1, H2. cbn [app fields_written field_of_event ids_requested
      bytes_written reported_bytes map path_size].
    rewrite H3, H4. repeat split; try reflexivity.
    intro Hstr. rewrite (H5 Hstr), Hstr. reflexivity.
Qed.

Lemma flags_byte_cases (get_child_keys : Value) :
  flags_byte get_child_keys = if py_truth get_child_keys then 1 else 0.
Proof. unfold flags_byte. now destruct (py_truth get_child_keys). Qed.

(** The payload of a variables request whose stored path is a list. *)
Lemma payload_Variables_run (r : DebuggerRequest) (n : Z)
  (self : DebuggerRequest) (c : C) (gck ti si : Value) (path : list str)
  (size : Z) :
  variant r = Variables gck ti si (VList path) size ->
  let o := payload dc r n self c in
  result o = Ok VNone /\
  fields_written (events o) =
    [F_byte (flags_byte gck); F_uint ti; F_uint si;
     F_uint (VInt (Z.of_nat (length path)))] ++ map F_str path /\
  ids_requested (events o) = [] /\
  (honours_contract dc ->
   bytes_written (events o) = UINT8_SIZE + 3 * UINT32_SIZE + path_size path).
Proof.
  intro Hv. cbv zeta. unfold payload. rewrite Hv.
  fold (flags_byte gck). cbn [py_len py_iter lift].
  rewrite !result_bind, !events_bind.
  cbn [call_send_byte call_send_uint ret get_self result self_after
       client_after events].
  rewrite !result_bind, !events_bind.
  cbn [call_send_byte call_send_uint ret get_self result self_after
       client_after events].
  set (c5 := snd (send_uint dc (VInt (Z.of_nat (length path))) _)).
  destruct (send_path_run path self c5) as (H1 & H2 & H3 & H4 & H5).
  rewrite !result_bind, !events_bind, H1, H2.
  cbn [get_self result self_after client_after events].
  rewrite !result_bind, !events_bind.
  assert (Hw : forall c' : C,
             let w := when (_debug self >=? 5)
                           (print (debug_sent_VARIABLES self)) self c' in
             result w = Ok tt /\ fields_written (events w) = [] /\
             ids_requested (events w) = [] /\ bytes_written (events w) = 0).
  { intro c'. unfold when. destruct (_debug self >=? 5); cbn; auto. }
  match goal with
  | |- context [when _ _ self ?c'] =>
      destruct (Hw c') as (W1 & W2 & W3 & W4); rewrite W1
  end.
  cbn [ret result events].
  rewrite !fields_written_app, !ids_requested_app, !bytes_written_app.
  rewrite H3, H4, W2, W3, W4.
  cbn [fields_written field_of_event ids_requested bytes_written
       reported_bytes app].
  rewrite !app_nil_r.
  repeat split; try reflexivity.
  intros (Hu & Hb & Hs). rewrite (H5 Hs), Hb, !Hu.
  unfold UINT8_SIZE, UINT32_SIZE. lia.
Qed.



(** Under the contract for 32-bit writes the header reports 12 bytes. *)
Lemma header_bytes (packet_size : Z) (self : DebuggerRequest) (c : C) :
  uint_writes_report_4 dc ->
  bytes_written (events (_send_base_fields dc packet_size self c)) = 12.
Proof.
  intro Hu.
  destruct (header_facts dc packet_size self c)
    as (id & n1 & n2 & n3 & c1 & c2 & c3 & c4 & _ & E1 & E2 & E3 & Hh).
  rewrite Hh. cbn [events].
  apply (f_equal fst) in E1, E2, E3. rewrite Hu in E1, E2, E3.
  cbn [fst] in E1, E2, E3. subst n1 n2 n3.
  destruct (_debug self >=? 5); reflexivity.
Qed.

End Payloads.

(** ** Sending a request *)

(** Events that involve no client call hand out no identifier and write
    nothing. *)
Lemma no_ops_no_effect (evs : list Event) :
  ops_of_events evs = [] ->
  ids_requested evs = [] /\ fields_written evs = [] /\ bytes_written evs = 0.
Proof.
  induction evs as [|e evs IH]; [now cbn|].
  destruct e; cbn; try discriminate. exact IH.
Qed.

Section Sending.
Context {C : Type} (dc : DebuggerClient C).


(** What a variables request announces and what its send writes, on a
    client that honours its contract: the stored size, and 25 bytes plus the
    segments the list holds when it is sent. *)
Lemma Variables_send_sizes (r : DebuggerRequest) (c : C)
  (gck ti si : Value) (path : list str) (size : Z) :
  variant r = Variables gck ti si (VList path) size ->
  honours_contract dc ->
  packet_size_field (events (send dc r c)) = Some (VInt size) /\
  bytes_written (events (send dc r c)) = 25 + path_size path.
Proof.
  intros Hv Hc.
  destruct (send_runs_header dc r c) as (p & q & He & _ & Hfp & Hbp & _ & Hok).
  destruct (header_summary dc (declared_size r) r c)
    as (id & _ & _ & Hf & Hres).
  pose proof (header_bytes dc (declared_size r) r c (proj1 Hc)) as Hb12.
  rewrite Hb12 in Hres. cbn in Hres.
  destruct (Hok 12 Hres) as (Hq & _).
  destruct (payload_Variables_run dc r 12
              (self_after (_send_base_fields dc (declared_size r) r c))
              (client_after (_send_base_fields dc (declared_size r) r c))
              _ _ _ _ _ Hv) as (_ & _ & _ & Hpb).
  unfold packet_size_field.
  rewrite He, !fields_written_app, Hfp, Hf, !bytes_written_app, Hbp, Hb12, Hq.
  rewrite (Hpb Hc). unfold declared_size. rewrite Hv. cbn [app]. split.
  - reflexivity.
  - unfold UINT8_SIZE, UINT32_SIZE. lia.
Qed.



(** After any change to a list that was stored as it is, the request still
    announces the size of the segments it was constructed with and writes
    the segments the list holds now. *)
Lemma packet_size_after_list_change
  (ti si vp gck cd : Value) (g g' : Globals) (r : DebuggerRequest)
  (now : list str) (c : C) :
  construct (New_Variables ti si vp gck cd) g = (Ok r, g') ->
  honours_contract dc ->
  py_truth vp = true ->
  packet_size_field (events (send dc (with_caller_list vp now r) c))
  = Some (VInt (25 + path_size (normalized_path vp))) /\
  bytes_written (events (send dc (with_caller_list vp now r) c))
  = 25 + path_size now.
Proof.
  intros Hk Hc Ht. cbn [construct] in Hk.
  apply DebuggerRequest_Variables__init__inv in Hk
    as (m & lvl & _ & _ & _ & _ & _ & _ & _ & -> & _).
  unfold with_caller_list. rewrite Ht. cbn [variant].
  apply (Variables_send_sizes _ c gck ti si now); [reflexivity | exact Hc].
Qed.

(** A send asks for one identifier and leaves the request as it was, with
    that identifier stored. *)
Lemma send_stores_one_id (r : DebuggerRequest) (c : C) :
  exists id,
    ids_requested (events (send dc r c)) = [id] /\
    self_after (send dc r c) = with_request_id r (Some id).
Proof.
  destruct (header_summary dc (declared_size r) r c) as (id & Hi & Hs & _ & _).
  exists id. split.
  - destruct (send_runs_header dc r c)
      as (p & q & He & Hp & _ & _ & Hraise & Hok).
    destruct (no_ops_no_effect p Hp) as (Hip & _ & _).
    rewrite He, !ids_requested_app, Hip, Hi.
    destruct (result (_send_base_fields dc (declared_size r) r c))
      as [n|e] eqn:Hres.
    + destruct (Hok n eq_refl) as (-> & _).
      now rewrite (proj2 (keeps_self_payload dc r n _ _)).
    + now destruct (Hraise e eq_refl) as (-> & _).
  - rewrite send_is_send_in_parts. unfold send_in_parts.
    rewrite self_after_bind, prologue_run.
    cbn [result self_after client_after].
    rewrite self_after_bind.
    destruct (result (_send_base_fields dc (declared_size r) r c)).
    + rewrite (proj1 (keeps_self_payload dc r a _ _)). exact Hs.
    + exact Hs.
Qed.

(** C9. [send] assigns the request identifier and nothing else: the command
    code, the caller's data, the debug level and every field of the variant,
    the declared size among them, are as they were. *)
Theorem send_changes_only_request_id (r : DebuggerRequest) (c : C) :
  let o := send dc r c in
  exists id,
    self_after o = with_request_id r (Some id) /\
    request_id (self_after o) = Some id /\
    cmd_code (self_after o) = cmd_code r /\
    caller_data (self_after o) = caller_data r /\
    _debug (self_after o) = _debug r /\
    variant (self_after o) = variant r /\
    declared_size (self_after o) = declared_size r.
Proof.
  cbv zeta. destruct (send_stores_one_id r c) as (id & _ & H).
  exists id. rewrite H. repeat split; reflexivity.
Qed.

(** The flag a variables request was built with is boolean, so the flags
    byte has bit 0 set exactly when child keys were asked for. *)
Lemma flags_byte_bits (gck : Value) :
  (py_eq_bool gck true || py_eq_bool gck false) = true ->
  (Z.testbit (flags_byte gck) 0 = true <-> py_eq_bool gck true = true) /\
  Z.shiftr (flags_byte gck) 1 = 0.
Proof.
  rewrite flags_byte_cases. unfold py_eq_bool, py_truth.
  destruct gck as [|b|n|s|cc|l]; try discriminate.
  - destruct b; cbn; intuition congruence.
  - cbn [int_value]. intro H. apply orb_prop in H as [H|H];
      apply Z.eqb_eq in H; subst n; cbn; intuition congruence.
  - destruct s; cbn; intuition congruence.
  - destruct cc; cbn; intuition congruence.
Qed.

(** C7. A variables request is sent as: the header (packet size, request
    identifier, command code), one flags byte with bit 0 set exactly when
    child keys were requested and no other bit set, the thread index, the
    stack index, the number of segments of the normalized path, and the
    segments in list order through the string write.  The client's 32-bit
    writes report 4 bytes each, as its contract says. *)
Theorem Variables_fields_in_order
  (thread_index stack_index variable_path get_child_keys caller_data : Value)
  (g g' : Globals) (r : DebuggerRequest) (c : C) :
  construct (New_Variables thread_index stack_index variable_path
                           get_child_keys caller_data) g = (Ok r, g') ->
  uint_writes_report_4 dc ->
  let o := send dc r c in
  let path := normalized_path variable_path in
  exists id,
    ids_requested (events o) = [id] /\
    fields_written (events o) =
      [F_uint (VInt (declared_size r)); F_uint (VInt id);
       F_uint (VCmdCode VARIABLES);
       F_byte (flags_byte get_child_keys);
       F_uint thread_index; F_uint stack_index;
       F_uint (VInt (Z.of_nat (length path)))]
      ++ map F_str path /\
    (Z.testbit (flags_byte get_child_keys) 0 = true
     <-> py_eq_bool get_child_keys true = true) /\
    Z.shiftr (flags_byte get_child_keys) 1 = 0 /\
    result o = Ok VNone.
Proof.
  intros Hk Hu. cbv zeta. cbn [construct] in Hk.
  apply DebuggerRequest_Variables__init__inv in Hk
    as (m & lvl & _ & _ & _ & _ & Hgck & _ & _ & Hr & _).
  destruct (send_runs_header dc r c)
    as (p & q & He & Hp & _ & _ & _ & Hok).
  destruct (no_ops_no_effect p Hp) as (Hip & Hfp & _).
  destruct (header_summary dc (declared_size r) r c)
    as (id & Hi & _ & Hf & Hres).
  rewrite (header_bytes dc _ _ _ Hu) in Hres. cbn in Hres.
  destruct (Hok 12 Hres) as (Hq & Hro).
  assert (Hv : variant r =
               Variables get_child_keys thread_index stack_index
                 (VList (normalized_path variable_path)) (declared_size r))
    by (rewrite Hr; reflexivity).
  destruct (payload_Variables_run dc r 12
              (self_after (_send_base_fields dc (declared_size r) r c))
              (client_after (_send_base_fields dc (declared_size r) r c))
              _ _ _ _ _ Hv) as (P1 & P2 & P3 & _).
  destruct (flags_byte_bits get_child_keys Hgck) as (B1 & B2).
  exists id. rewrite He, Hq, Hro.
  rewrite !ids_requested_app, !fields_written_app, Hip, Hfp, Hi, Hf, P2, P3.
  assert (Hcmd : cmd_code r = VARIABLES) by (rewrite Hr; reflexivity).
  rewrite Hcmd. repeat split; try assumption; apply B1.
Qed.

End Sending.

(** ** Construction *)

(** Every constructor runs [DebuggerRequest.__init__]: a request exists only
    if the main module had [gMain.gDebugLevel], and its debug level then is
    that level, or 0 if it was negative. *)
Lemma construct_inv (k : Ctor) (g g' : Globals) (r : DebuggerRequest) :
  construct k g = (Ok r, g') ->
  exists m lvl,
    main_gMain g = Some m /\ gDebugLevel m = Some lvl /\
    _debug r = Z.max lvl 0 /\
    g' = {| main_gMain := main_gMain g; gMain := Some m |}.
Proof.
  destruct k; cbn [construct];
    unfold _DebuggerRequest_NoParams__init__, DebuggerRequest_Continue__init__,
      DebuggerRequest_ExitChannel__init__, DebuggerRequest_Stop__init__,
      DebuggerRequest_Threads__init__, DebuggerRequest_Stacktrace__init__,
      DebuggerRequest_Step__init__, _DebuggerRequest_NoParams__init__,
      init_bind, init_ret, init_raise;
    try (rewrite DebuggerRequest__init__run;
         destruct (main_gMain g) as [m|]; [|discriminate];
         destruct (gDebugLevel m) as [lvl|] eqn:Hl; [|discriminate];
         intro H; injection H as <- <-; exists m, lvl; now repeat split).
  - destruct step_type; try discriminate.
    rewrite DebuggerRequest__init__run.
    destruct (main_gMain g) as [m|]; [|discriminate].
    destruct (gDebugLevel m) as [lvl|] eqn:Hl; [|discriminate].
    intro H; injection H as <- <-. exists m, lvl. now repeat split.
  - intro H. apply DebuggerRequest_Variables__init__inv in H
      as (m & lvl & Hm & Hl & _ & _ & _ & _ & _ & -> & ->).
    exists m, lvl. now repeat split.
Qed.


(** C2. A variables request built from a path that is [None] or a list of
    strings declares 12 + 1 + 4 + 4 + 4 = 25 bytes and, for each segment,
    its UTF-8 length plus 1; with [None] or the empty list, exactly 25. *)
Theorem Variables_declared_size
  (thread_index stack_index variable_path get_child_keys caller_data : Value)
  (g g' : Globals) (r : DebuggerRequest) :
  variable_path = VNone \/ (exists l, variable_path = VList l) ->
  construct (New_Variables thread_index stack_index variable_path
                           get_child_keys caller_data) g = (Ok r, g') ->
  declared_size r
  = 12 + 1 + 4 + 4 + 4 + path_size (normalized_path variable_path) /\
  (variable_path = VNone \/ variable_path = VList [] -> declared_size r = 25).
Proof.
  intros _ H. cbn [construct] in H.
  apply DebuggerRequest_Variables__init__inv in H
    as (m & lvl & _ & _ & _ & _ & _ & _ & _ & -> & _).
  unfold declared_size. cbn [variant]. split.
  - reflexivity.
  - intros [->| ->]; reflexivity.
Qed.

(** C3, amended. For every list of path segments, the empty one included,
    the size computed by the variables constructor is the 12-byte header
    size plus 13 (one flags byte and three 32-bit fields) plus, for each
    segment, its UTF-8 length plus 1, whatever the width of its characters;
    the constructor raises only when a segment holds a lone surrogate, which
    has no UTF-8 form. *)
Theorem Variables_size_for_every_path
  (thread_index stack_index get_child_keys caller_data : Value)
  (path : list str) (g : Globals) (m : GMain) (lvl : Z) :
  main_gMain g = Some m -> gDebugLevel m = Some lvl ->
  index_is_valid thread_index = Ok true ->
  index_is_valid stack_index = Ok true ->
  (py_eq_bool get_child_keys true || py_eq_bool get_child_keys false) = true ->
  let made := construct (New_Variables thread_index stack_index (VList path)
                                       get_child_keys caller_data) g in
  if forallb encodable path then
    exists r g',
      made = (Ok r, g') /\
      declared_size r = NO_PARAMS_REQUEST_SIZE + 13 + path_size path
  else fst made = Raise UnicodeEncodeError.
Proof.
  intros Hm Hl Hti Hsi Hk. cbv zeta. cbn [construct].
  rewrite (DebuggerRequest_Variables__init__total _ _ (VList path) _ _ g m lvl
             Hm Hl Hti Hsi Hk) by eauto.
  cbv zeta. cbn [normalized_path].
  destruct (forallb encodable path); [|reflexivity].
  eexists _, _. split; [reflexivity|].
  unfold declared_size. cbn [variant].
  unfold NO_PARAMS_REQUEST_SIZE, UINT8_SIZE, UINT32_SIZE. lia.
Qed.

(** C3 as stated fails: with the empty path the constructor computes 25,
    which is not the header size plus 9. *)
Lemma Variables_size_is_not_header_plus_9 :
  ~ (forall path r g',
       construct (New_Variables (VInt 0) (VInt 0) (VList path) (VBool false)
                                VNone) (globals_with_level 0) = (Ok r, g') ->
       declared_size r = NO_PARAMS_REQUEST_SIZE + 9 + path_size path).
Proof.
  intro H. specialize (H [] _ _ eq_refl). discriminate H.
Qed.

(** [path_size] is the sum, over the segments, of UTF-8 length plus one. *)
Lemma path_size_sum (path : list str) :
  path_size path = fold_right Z.add 0 (map (fun s => utf8_len s + 1) path).
Proof. induction path as [|s path IH]; cbn; [reflexivity | now rewrite IH]. Qed.

(** C6. A step request whose step kind is not a member of [StepType] is
    rejected by the constructor with [AssertionError], before anything else
    happens: the interpreter state is untouched and a caller that would send
    the request reaches no write. *)
Theorem Step_rejects_other_step_kinds
  (thread_index step_type : Value) (g : Globals) :
  (forall s, step_type <> VStepType s) ->
  construct (New_Step thread_index step_type) g = (Raise AssertionError, g) /\
  forall C (dc : DebuggerClient C) (c : C),
    construct_then_send dc (New_Step thread_index step_type) g c
    = {| issued_result := Raise AssertionError; issued_globals := g;
         issued_client := c; issued_events := [] |}.
Proof.
  intro H.
  assert (E : construct (New_Step thread_index step_type) g
              = (Raise AssertionError, g)).
  { cbn [construct]. unfold DebuggerRequest_Step__init__.
    destruct step_type; try reflexivity. now destruct (H s). }
  split; [exact E|]. intros C dc c. unfold construct_then_send. now rewrite E.
Qed.

(** A member of [StepType] is accepted, whatever the thread index. *)
Lemma Step_accepts_step_kinds (thread_index : Value) (s : StepType) (lvl : Z) :
  fst (construct (New_Step thread_index (VStepType s)) (globals_with_level lvl))
  = Ok {| _debug := Z.max lvl 0; cmd_code := STEP; request_id := None;
          caller_data := VNone; variant := Step thread_index s 17 |}.
Proof. reflexivity. Qed.

(** The variables constructor rejects a negative thread index. *)
Lemma Variables_rejects_negative_thread_index
  (n : Z) (stack_index variable_path get_child_keys caller_data : Value)
  (g : Globals) :
  n < 0 ->
  (exists e g',
     construct (New_Variables (VInt n) stack_index variable_path
                              get_child_keys caller_data) g = (Raise e, g')) /\
  forall C (dc : DebuggerClient C) (c : C),
    issued_events (construct_then_send dc
      (New_Variables (VInt n) stack_index variable_path get_child_keys
                     caller_data) g c) = [] /\
    issued_client (construct_then_send dc
      (New_Variables (VInt n) stack_index variable_path get_child_keys
                     caller_data) g c) = c.
Proof.
  intro Hn.
  assert (E : exists e g',
             construct (New_Variables (VInt n) stack_index variable_path
                          get_child_keys caller_data) g = (Raise e, g')).
  { destruct (construct _ g) as [[r|e] g'] eqn:E; [|eauto].
    cbn [construct] in E.
    apply DebuggerRequest_Variables__init__inv in E
      as (m & lvl & _ & _ & Hti & _).
    unfold index_is_valid in Hti. cbn in Hti.
    injection Hti as Hti. apply Z.geb_le in Hti. lia. }
  split; [exact E|]. intros C dc c. destruct E as (e & g' & E).
  unfold construct_then_send. rewrite E. split; reflexivity.
Qed.

(** C5 (the stack-trace half fails). The stack-trace constructor does not
    look at its thread index: with -1 it returns a request, and sending
    that request writes the header and then hands -1 to the 32-bit write. *)
Theorem Stacktrace_accepts_negative_thread_index :
  fst (construct (New_Stacktrace (VInt (-1)) VNone) (globals_with_level 0))
  = Ok {| _debug := 0; cmd_code := STACKTRACE; request_id := None;
          caller_data := VNone; variant := Stacktrace 16 (VInt (-1)) |} /\
  fields_written
    (issued_events
       (construct_then_send (RefClient.client 4)
          (New_Stacktrace (VInt (-1)) VNone) (globals_with_level 0)
          RefClient.start))
  = [F_uint (VInt 16); F_uint (VInt 1); F_uint (VCmdCode STACKTRACE);
     F_uint (VInt (-1))].
Proof. split; reflexivity. Qed.

(** ** Request identifiers across sends *)

Section Identifiers.
Context {C : Type} (dc : DebuggerClient C).

(** The identifiers a sequence of sends assigns are those the client hands
    out along some sequence of its operations. *)
Lemma send_all_ids (reqs : list DebuggerRequest) (c : C) :
  exists ids ops,
    assigned_ids (send_all dc reqs c) = map Some ids /\
    fst (run_ops dc ops c) = ids.
Proof.
  revert c. induction reqs as [|r rest IH]; intro c.
  - exists [], []. split; reflexivity.
  - unfold assigned_ids in *. cbn [send_all map].
    destruct (send_stores_one_id dc r c) as (id & Hi & Hs).
    destruct (IH (client_after (send dc r c))) as (ids & ops & Ha & Hr).
    exists (id :: ids), (ops_of_events (events (send dc r c)) ++ ops).
    split.
    + rewrite Hs, Ha. reflexivity.
    + rewrite run_ops_app, (faithful_send dc r c), Hi. cbn [fst snd app].
      now rewrite Hr.
Qed.

(** C8. On a client whose identifiers are fresh and increase from call to
    call, the identifiers assigned by any sequence of sends are pairwise
    distinct and non-decreasing. *)
Theorem request_ids_distinct_and_nondecreasing
  (c : C) (reqs : list DebuggerRequest) :
  ids_fresh_and_increasing dc c ->
  exists ids,
    assigned_ids (send_all dc reqs c) = map Some ids /\
    length ids = length reqs /\
    NoDup ids /\
    StronglySorted Z.le ids.
Proof.
  intro H. destruct (send_all_ids reqs c) as (ids & ops & Ha & Hr).
  exists ids. split; [exact Ha|]. split.
  - apply (f_equal (@length _)) in Ha. unfold assigned_ids in Ha.
    rewrite !length_map in Ha.
    assert (L : forall l c', length (send_all dc l c') = length l).
    { induction l as [|x l IHl]; intro c'; cbn; [reflexivity|].
      now rewrite IHl. }
    now rewrite L in Ha.
  - rewrite <- Hr. apply H.
Qed.

End Identifiers.

(** ** The reference client *)

Lemma RefClient_honours_contract : honours_contract (RefClient.client 4).
Proof. repeat split. Qed.

(** Its identifiers start at the counter and go up by one. *)
Lemma RefClient_ids_from_counter (n : Z) (ops : list ClientOp)
  (s : RefClient.State) :
  Forall (fun id => RefClient.counter s <= id)
         (fst (run_ops (RefClient.client n) ops s)) /\
  StronglySorted Z.lt (fst (run_ops (RefClient.client n) ops s)).
Proof.
  revert s. induction ops as [|op ops IH]; intro s.
  - cbn. split; constructor.
  - destruct op as [|v|b|t]; cbn [run_ops];
      [| exact (IH (snd (send_uint (RefClient.client n) v s)))
       | exact (IH (snd (send_byte (RefClient.client n) b s)))
       | exact (IH (snd (send_str (RefClient.client n) t s))) ].
    cbn [RefClient.client get_next_request_id].
    destruct (run_ops (RefClient.client n) ops
                {| RefClient.counter := RefClient.counter s + 1;
                   RefClient.sink := RefClient.sink s |}) as [ids s'] eqn:E.
    destruct (IH {| RefClient.counter := RefClient.counter s + 1;
                    RefClient.sink := RefClient.sink s |}) as [F S].
    rewrite E in F, S. cbn [fst RefClient.counter] in *. split.
    + constructor; [lia|]. eapply Forall_impl; [|exact F]. cbn. intros; lia.
    + constructor; [exact S|]. eapply Forall_impl; [|exact F]. cbn. intros; lia.
Qed.

Lemma RefClient_ids_fresh_and_increasing (n : Z) (s : RefClient.State) :
  ids_fresh_and_increasing (RefClient.client n) s.
Proof.
  intro ops. destruct (RefClient_ids_from_counter n ops s) as [_ S].
  assert (G : forall l, StronglySorted Z.lt l ->
                        NoDup l /\ StronglySorted Z.le l).
  { induction l as [|x l IHl]; intro Hl; [split; constructor|].
    apply StronglySorted_inv in Hl as [Hl Hx].
    destruct (IHl Hl) as [N L]. split.
    - constructor; [|exact N]. intro Hin.
      rewrite Forall_forall in Hx. specialize (Hx x Hin). lia.
    - constructor; [exact L|]. eapply Forall_impl; [|exact Hx].
      cbn. intros; lia. }
  exact (G _ S).
Qed.

(** ** The properties at concrete requests *)



(** C2 for the path ["a", "b"]: 25 + 2 + 2. *)
Lemma Variables_declared_size_witness :
  exists r g',
    construct (New_Variables (VInt 0) (VInt 0) (VList path_a_b) (VBool true)
                             VNone) (globals_with_level 0) = (Ok r, g') /\
    declared_size r = 29.
Proof.
  eexists _, _. split; [reflexivity|].
  exact (proj1 (Variables_declared_size (VInt 0) (VInt 0) (VList path_a_b)
                  (VBool true) VNone (globals_with_level 0) _ _
                  (or_intror (ex_intro _ path_a_b eq_refl)) eq_refl)).
Defined.

(** C3, amended, for segments with two-, three- and four-byte characters. *)
Lemma Variables_size_for_every_path_witness :
  exists r g',
    construct (New_Variables (VInt 1) (VInt 0) (VList path_multibyte)
                             (VBool false) VNone) (globals_with_level 3)
    = (Ok r, g') /\
    declared_size r = NO_PARAMS_REQUEST_SIZE + 13 + path_size path_multibyte.
Proof.
  exact (Variables_size_for_every_path (VInt 1) (VInt 0) (VBool false) VNone
           path_multibyte (globals_with_level 3) _ 3
           eq_refl eq_refl eq_refl eq_refl eq_refl).
Defined.

(** C6 for the integer 1, which is the value of [LINE] but no member of
    [StepType]. *)
Lemma Step_rejects_other_step_kinds_witness :
  construct (New_Step (VInt 2) (VInt 1)) (globals_with_level 0)
  = (Raise AssertionError, globals_with_level 0).
Proof.
  refine (proj1 (Step_rejects_other_step_kinds (VInt 2) (VInt 1)
                   (globals_with_level 0) _)).
  intros s H. discriminate H.
Defined.

(** C7 on the reference client, for the path ["a", "b"] with child keys. *)
Lemma Variables_fields_in_order_witness :
  uint_writes_report_4 (RefClient.client 4) /\
  exists r g',
    construct (New_Variables (VInt 0) (VInt 0) (VList path_a_b) (VBool true)
                             VNone) (globals_with_level 0) = (Ok r, g') /\
    exists id,
      ids_requested (events (send (RefClient.client 4) r RefClient.start))
      = [id] /\
      fields_written (events (send (RefClient.client 4) r RefClient.start))
      = [F_uint (VInt 29); F_uint (VInt id); F_uint (VCmdCode VARIABLES);
         F_byte 1; F_uint (VInt 0); F_uint (VInt 0); F_uint (VInt 2);
         F_str [0x61%N]; F_str [0x62%N]].
Proof.
  split; [exact (proj1 RefClient_honours_contract)|].
  eexists _, _. split; [reflexivity|].
  destruct (Variables_fields_in_order (RefClient.client 4)
              (VInt 0) (VInt 0) (VList path_a_b) (VBool true) VNone
              (globals_with_level 0) _ _ RefClient.start eq_refl
              (proj1 RefClient_honours_contract))
    as (id & Hi & Hf & _).
  exists id. split; [exact Hi | exact Hf].
Defined.

(** C8 for two stack-trace requests on the reference client. *)
Lemma request_ids_distinct_and_nondecreasing_witness :
  exists ids,
    assigned_ids
      (send_all (RefClient.client 4)
         [ {| _debug := 0; cmd_code := STACKTRACE; request_id := None;
              caller_data := VNone; variant := Stacktrace 16 (VInt 0) |};
           {| _debug := 0; cmd_code := STACKTRACE; request_id := None;
              caller_data := VNone; variant := Stacktrace 16 (VInt 1) |} ]
         RefClient.start)
    = map Some ids /\
    length ids = 2%nat /\ NoDup ids /\ StronglySorted Z.le ids.
Proof.
  exact (request_ids_distinct_and_nondecreasing (RefClient.client 4)
           RefClient.start _
           (RefClient_ids_fresh_and_increasing 4 RefClient.start)).
Defined.


(** ** End-to-end scenarios on the reference client *)

(** A stop request: the header only, with size 12. *)
Example scenario_stop :
  let i := construct_then_send (RefClient.client 4) New_Stop
             (globals_with_level 0) RefClient.start in
  issued_result i = Ok (VInt 12) /\
  fields_written (issued_events i)
  = [F_uint (VInt 12); F_uint (VInt 1); F_uint (VCmdCode STOP)] /\
  RefClient.sink (issued_client i)
  = [12; 0; 0; 0; 1; 0; 0; 0; 1; 0; 0; 0]%N.
Proof. repeat split. Qed.

(** A step request for thread 2, stepping over: size 17. *)
Example scenario_step :
  let i := construct_then_send (RefClient.client 4)
             (New_Step (VInt 2) (VStepType OVER))
             (globals_with_level 0) RefClient.start in
  fields_written (issued_events i)
  = [F_uint (VInt 17); F_uint (VInt 1); F_uint (VCmdCode STEP);
     F_uint (VInt 2); F_byte 3] /\
  RefClient.sink (issued_client i)
  = [17; 0; 0; 0; 1; 0; 0; 0; 6; 0; 0; 0; 2; 0; 0; 0; 3]%N.
Proof. repeat split. Qed.

(** A variables request with no path and no child keys: size 25. *)
Example scenario_variables_empty :
  let i := construct_then_send (RefClient.client 4)
             (New_Variables (VInt 0) (VInt 0) (VList []) (VBool false) VNone)
             (globals_with_level 0) RefClient.start in
  fields_written (issued_events i)
  = [F_uint (VInt 25); F_uint (VInt 1); F_uint (VCmdCode VARIABLES);
     F_byte 0; F_uint (VInt 0); F_uint (VInt 0); F_uint (VInt 0)] /\
  length (RefClient.sink (issued_client i)) = 25%nat.
Proof. repeat split. Qed.

(** A variables request for ["a", "b"] with child keys: size 29. *)
Example scenario_variables_a_b :
  let i := construct_then_send (RefClient.client 4)
             (New_Variables (VInt 0) (VInt 0) (VList path_a_b) (VBool true)
                            VNone)
             (globals_with_level 0) RefClient.start in
  fields_written (issued_events i)
  = [F_uint (VInt 29); F_uint (VInt 1); F_uint (VCmdCode VARIABLES);
     F_byte 1; F_uint (VInt 0); F_uint (VInt 0); F_uint (VInt 2);
     F_str [0x61%N]; F_str [0x62%N]] /\
  RefClient.sink (issued_client i)
  = [29; 0; 0; 0; 1; 0; 0; 0; 5; 0; 0; 0; 1; 0; 0; 0; 0; 0; 0; 0; 0;
     2; 0; 0; 0; 0x61; 0; 0x62; 0]%N.
Proof. repeat split. Qed.

(** A missing path is sent like the empty one. *)
Example scenario_variables_None :
  construct_then_send (RefClient.client 4)
    (New_Variables (VInt 0) (VInt 0) VNone (VBool false) VNone)
    (globals_with_level 0) RefClient.start
  = construct_then_send (RefClient.client 4)
      (New_Variables (VInt 0) (VInt 0) (VList []) (VBool false) VNone)
      (globals_with_level 0) RefClient.start.
Proof. reflexivity. Qed.

(** Two stack-trace requests sent back to back get identifiers 1 and 2. *)
Example scenario_two_stacktraces :
  assigned_ids
    (send_all (RefClient.client 4)
       [ {| _debug := 0; cmd_code := STACKTRACE; request_id := None;
            caller_data := VNone; variant := Stacktrace 16 (VInt 0) |};
         {| _debug := 0; cmd_code := STACKTRACE; request_id := None;
            caller_data := VNone; variant := Stacktrace 16 (VInt 1) |} ]
       RefClient.start)
  = [Some 1; Some 2].
Proof. reflexivity. Qed.

(** A client that reports 5 bytes for a 32-bit write: the header check
    raises, and a variables request gets no further than its header. *)
Example scenario_misreporting_client :
  let i := construct_then_send (RefClient.client 5)
             (New_Variables (VInt 0) (VInt 0) (VList path_a_b) (VBool true)
                            VNone)
             (globals_with_level 0) RefClient.start in
  issued_result i = Raise AssertionError /\
  fields_written (issued_events i)
  = [F_uint (VInt 29); F_uint (VInt 1); F_uint (VCmdCode VARIABLES)].
Proof. repeat split. Qed.

(** With debug level 5 the header and the variables request print. *)
Example scenario_debug_lines :
  let i := construct_then_send (RefClient.client 4)
             (New_Variables (VInt 0) (VInt 0) VNone (VBool false) VNone)
             (globals_with_level 5) RefClient.start in
  length (issued_events i) = 10%nat /\
  bytes_written (issued_events i) = 25.
Proof. repeat split. Qed.

(** * Further properties of the request classes *)

(** ** What the constructors store *)

(** A constructed request carries the command code of its class, no
    identifier yet, and the fields of its class. *)
Lemma construct_fields (k : Ctor) (g g' : Globals) (r : DebuggerRequest) :
  construct k g = (Ok r, g') ->
  request_id r = None /\
  cmd_code r = class_cmd_code k /\
  match k with
  | New_Stacktrace ti cd =>
      variant r = Stacktrace 16 ti /\ caller_data r = cd
  | New_Step ti st =>
      exists s, st = VStepType s /\ variant r = Step ti s 17 /\
                caller_data r = VNone
  | New_Variables ti si vp gck cd =>
      variant r = Variables gck ti si (VList (normalized_path vp))
                    (25 + path_size (normalized_path vp)) /\
      caller_data r = cd
  | New_NoParams _ cd | New_Threads cd =>
      variant r = NoParams /\ caller_data r = cd
  | New_Continue | New_ExitChannel =>
      variant r = NoParams /\ caller_data r = VBool false
  | New_Stop => variant r = NoParams /\ caller_data r = VNone
  end.
Proof.
  destruct k; cbn [construct];
    unfold _DebuggerRequest_NoParams__init__, DebuggerRequest_Continue__init__,
      DebuggerRequest_ExitChannel__init__, DebuggerRequest_Stop__init__,
      DebuggerRequest_Threads__init__, DebuggerRequest_Stacktrace__init__,
      DebuggerRequest_Step__init__, _DebuggerRequest_NoParams__init__,
      init_bind, init_ret, init_raise;
    try (rewrite DebuggerRequest__init__run;
         destruct (main_gMain g) as [m|]; [|discriminate];
         destruct (gDebugLevel m) as [lvl|]; [|discriminate];
         intro H; injection H as <- <-; now repeat split).
  - destruct step_type; try discriminate.
    rewrite DebuggerRequest__init__run.
    destruct (main_gMain g) as [m|]; [|discriminate].
    destruct (gDebugLevel m) as [lvl|]; [|discriminate].
    intro H; injection H as <- <-. repeat split. exists s. now repeat split.
  - intro H. apply DebuggerRequest_Variables__init__inv in H
      as (m & lvl & _ & _ & _ & _ & _ & _ & _ & -> & _).
    now repeat split.
Qed.

(** ** What [send] writes for the other classes *)

Section OtherClasses.
Context {C : Type} (dc : DebuggerClient C).

Lemma payload_NoParams_run (r : DebuggerRequest) (n : Z)
  (self : DebuggerRequest) (c : C) :
  variant r = NoParams ->
  result (payload dc r n self c) = Ok (VInt n) /\
  fields_written (events (payload dc r n self c)) = [].
Proof. intro Hv. unfold payload. rewrite Hv. split; reflexivity. Qed.

Lemma payload_Stacktrace_run (r : DebuggerRequest) (n : Z)
  (self : DebuggerRequest) (c : C) (size : Z) (ti : Value) :
  variant r = Stacktrace size ti ->
  result (payload dc r n self c) = Ok VNone /\
  fields_written (events (payload dc r n self c)) = [F_uint ti].
Proof.
  intro Hv. unfold payload. rewrite Hv, result_bind, events_bind.
  split; reflexivity.
Qed.

Lemma payload_Step_run (r : DebuggerRequest) (n : Z)
  (self : DebuggerRequest) (c : C) (ti : Value) (st : StepType) (size : Z) :
  variant r = Step ti st size ->
  result (payload dc r n self c) = Ok VNone /\
  fields_written (events (payload dc r n self c))
  = [F_uint ti; F_byte (StepType_value st)].
Proof.
  intro Hv. unfold payload. rewrite Hv.
  repeat progress
    (rewrite ?events_bind, ?result_bind;
     cbn [call_send_uint call_send_byte ret result self_after client_after
          events]).
  split; reflexivity.
Qed.

(** When the header check passes, [send] has asked for one identifier and
    written the header and then the payload, and returns what the payload
    part returns. *)
Lemma send_after_header (r : DebuggerRequest) (c : C) :
  let h := _send_base_fields dc (declared_size r) r c in
  let o := send dc r c in
  exists id,
    ids_requested (events o) = [id] /\
    self_after h = with_request_id r (Some id) /\
    (forall n, result h = Ok n ->
       fields_written (events o)
       = header_fields r id
         ++ fields_written
              (events (payload dc r n (self_after h) (client_after h))) /\
       result o = result (payload dc r n (self_after h) (client_after h))) /\
    (forall e, result h = Raise e ->
       fields_written (events o) = header_fields r id /\
       result o = Raise e).
Proof.
  cbv zeta.
  destruct (send_runs_header dc r c)
    as (p & q & He & Hp & _ & _ & Hraise & Hok).
  destruct (no_ops_no_effect p Hp) as (Hip & Hfp & _).
  destruct (header_summary dc (declared_size r) r c)
    as (id & Hi & Hs & Hf & Hres).
  exists id. split; [|split; [exact Hs|split]].
  - rewrite He, !ids_requested_app, Hip, Hi.
    destruct (result (_send_base_fields dc (declared_size r) r c))
      as [n|e] eqn:Hr.
    + destruct (Hok n eq_refl) as (-> & _).
      now rewrite (proj2 (keeps_self_payload dc r n _ _)).
    + now destruct (Hraise e eq_refl) as (-> & _).
  - intros n Hn. destruct (Hok n Hn) as (Hq & Hro).
    rewrite He, !fields_written_app, Hfp, Hf, Hq, Hro. split; reflexivity.
  - intros e Hraised. destruct (Hraise e Hraised) as (Hq & Hro).
    rewrite He, !fields_written_app, Hfp, Hf, Hq, Hro. split; reflexivity.
Qed.

(** With 32-bit writes that report 4 bytes the header check passes. *)
Lemma header_passes (r : DebuggerRequest) (c : C) :
  uint_writes_report_4 dc ->
  result (_send_base_fields dc (declared_size r) r c) = Ok 12.
Proof.
  intro Hu.
  destruct (header_summary dc (declared_size r) r c) as (id & _ & _ & _ & H).
  rewrite (header_bytes dc _ _ _ Hu) in H. exact H.
Qed.

(** X1. A request of a class without payload (stop, continue, threads, exit
    channel) is sent as the header alone, with packet size 12 and the
    command code of its class; [send] returns 12. *)
Theorem no_payload_request_is_header_only
  (k : Ctor) (g g' : Globals) (r : DebuggerRequest) (c : C) :
  construct k g = (Ok r, g') ->
  variant r = NoParams ->
  uint_writes_report_4 dc ->
  exists id,
    ids_requested (events (send dc r c)) = [id] /\
    fields_written (events (send dc r c))
    = [F_uint (VInt 12); F_uint (VInt id); F_uint (VCmdCode (class_cmd_code k))]
    /\
    result (send dc r c) = Ok (VInt 12) /\
    bytes_written (events (send dc r c)) = 12.
Proof.
  intros Hk Hv Hu.
  destruct (construct_fields k g g' r Hk) as (_ & Hcmd & _).
  destruct (send_after_header r c) as (id & Hi & _ & Hok & _).
  destruct (Hok 12 (header_passes r c Hu)) as (Hf & Hr).
  destruct (payload_NoParams_run r 12
              (self_after (_send_base_fields dc (declared_size r) r c))
              (client_after (_send_base_fields dc (declared_size r) r c)) Hv)
    as (P1 & P2).
  exists id. rewrite Hf, Hr, P1, P2. unfold header_fields, declared_size.
  rewrite Hv, Hcmd. repeat split; try assumption.
  destruct (send_runs_header dc r c) as (p & q & He & _ & _ & Hbp & _ & Hq).
  destruct (Hq 12 (header_passes r c Hu)) as (-> & _).
  rewrite He, !bytes_written_app, Hbp, (header_bytes dc _ _ _ Hu).
  unfold payload. rewrite Hv. reflexivity.
Qed.

(** X2. A stack-trace request is sent as the header, with packet size 16
    and command code STACKTRACE, followed by the thread index as an
    unsigned 32-bit integer; [send] returns [None]. *)
Theorem Stacktrace_fields_in_order
  (thread_index caller_data : Value) (g g' : Globals) (r : DebuggerRequest)
  (c : C) :
  construct (New_Stacktrace thread_index caller_data) g = (Ok r, g') ->
  uint_writes_report_4 dc ->
  exists id,
    ids_requested (events (send dc r c)) = [id] /\
    fields_written (events (send dc r c))
    = [F_uint (VInt 16); F_uint (VInt id); F_uint (VCmdCode STACKTRACE);
       F_uint thread_index] /\
    result (send dc r c) = Ok VNone.
Proof.
  intros Hk Hu.
  destruct (construct_fields _ g g' r Hk) as (_ & Hcmd & Hv & _).
  destruct (send_after_header r c) as (id & Hi & _ & Hok & _).
  destruct (Hok 12 (header_passes r c Hu)) as (Hf & Hr).
  destruct (payload_Stacktrace_run r 12
              (self_after (_send_base_fields dc (declared_size r) r c))
              (client_after (_send_base_fields dc (declared_size r) r c))
              _ _ Hv) as (P1 & P2).
  exists id. rewrite Hf, Hr, P1, P2. unfold header_fields, declared_size.
  rewrite Hv, Hcmd. repeat split; assumption.
Qed.

(** X3. A step request is sent as the header, with packet size 17 and
    command code STEP, followed by the thread index as an unsigned 32-bit
    integer and the numeric value of the step kind, between 0 and 3, as one
    byte; [send] returns [None]. *)
Theorem Step_fields_in_order
  (thread_index : Value) (s : StepType) (g g' : Globals)
  (r : DebuggerRequest) (c : C) :
  construct (New_Step thread_index (VStepType s)) g = (Ok r, g') ->
  uint_writes_report_4 dc ->
  exists id,
    ids_requested (events (send dc r c)) = [id] /\
    fields_written (events (send dc r c))
    = [F_uint (VInt 17); F_uint (VInt id); F_uint (VCmdCode STEP);
       F_uint thread_index; F_byte (StepType_value s)] /\
    0 <= StepType_value s <= 3 /\
    result (send dc r c) = Ok VNone.
Proof.
  intros Hk Hu.
  destruct (construct_fields _ g g' r Hk) as (_ & Hcmd & s' & Hs & Hv & _).
  injection Hs as <-.
  destruct (send_after_header r c) as (id & Hi & _ & Hok & _).
  destruct (Hok 12 (header_passes r c Hu)) as (Hf & Hr).
  destruct (payload_Step_run r 12
              (self_after (_send_base_fields dc (declared_size r) r c))
              (client_after (_send_base_fields dc (declared_size r) r c))
              _ _ _ Hv) as (P1 & P2).
  exists id. rewrite Hf, Hr, P1, P2. unfold header_fields, declared_size.
  rewrite Hv, Hcmd. repeat split; try assumption; destruct s; cbn; lia.
Qed.

(** The payload part of a request with a declared size in order returns
    without raising. *)
Lemma payload_returns (r : DebuggerRequest) (n : Z) (self : DebuggerRequest)
  (c : C) :
  well_sized r ->
  result (payload dc r n self c)
  = Ok (match variant r with NoParams => VInt n | _ => VNone end).
Proof.
  intro Hw. unfold well_sized in Hw.
  destruct (variant r) as [|size ti|ti st size|gck ti si vp size] eqn:Hv.
  - apply (payload_NoParams_run r n self c Hv).
  - apply (payload_Stacktrace_run r n self c _ _ Hv).
  - apply (payload_Step_run r n self c _ _ _ Hv).
  - destruct Hw as (path & -> & _).
    apply (payload_Variables_run dc r n self c _ _ _ _ _ Hv).
Qed.

(** X4. The byte-count check covers the header only.  For every constructed
    request and every client, [send] raises exactly when the three header
    writes did not report 12 bytes in total, with [AssertionError] and
    nothing written after the header; otherwise it returns, whatever the
    payload writes report. *)
Theorem send_checks_header_count_only
  (k : Ctor) (g g' : Globals) (r : DebuggerRequest) (c : C) :
  construct k g = (Ok r, g') ->
  let h := _send_base_fields dc (declared_size r) r c in
  let o := send dc r c in
  exists id,
    ids_requested (events o) = [id] /\
    request_id (self_after o) = Some id /\
    (bytes_written (events h) = 12 ->
     result o = Ok (send_return_value r) /\
     exists written,
       fields_written (events o) = header_fields r id ++ written) /\
    (bytes_written (events h) <> 12 ->
     result o = Raise AssertionError /\
     fields_written (events o) = header_fields r id).
Proof.
  intro Hk. cbv zeta.
  pose proof (construct_well_sized _ _ _ _ Hk) as Hw.
  destruct (send_after_header r c) as (id & Hi & Hs & Hok & Hraise).
  destruct (header_summary dc (declared_size r) r c)
    as (id' & _ & _ & _ & Hres).
  destruct (send_stores_one_id dc r c) as (id2 & Hi2 & Hs2).
  rewrite Hi in Hi2. injection Hi2 as <-.
  exists id. split; [exact Hi|]. split; [now rewrite Hs2|]. split.
  - intro H12. rewrite H12 in Hres. cbn in Hres.
    destruct (Hok 12 Hres) as (Hf & Hr). split.
    + rewrite Hr, (payload_returns r 12 _ _ Hw). unfold send_return_value.
      now destruct (variant r).
    + eexists. exact Hf.
  - intro Hne. apply Z.eqb_neq in Hne. rewrite Hne in Hres.
    destruct (Hraise AssertionError Hres) as (Hf & Hr). now split.
Qed.

End OtherClasses.

(** ** What the constructors accept *)

(** X5. For the variables constructor a missing path and an empty path are
    the same: the two calls give the same outcome, hence the same request
    and, when it is sent, the same bytes. *)
Theorem Variables_None_is_empty_path
  (thread_index stack_index get_child_keys caller_data : Value) (g : Globals) :
  construct (New_Variables thread_index stack_index VNone get_child_keys
                           caller_data) g
  = construct (New_Variables thread_index stack_index (VList []) get_child_keys
                             caller_data) g /\
  forall C (dc : DebuggerClient C) (c : C),
    construct_then_send dc
      (New_Variables thread_index stack_index VNone get_child_keys caller_data)
      g c
    = construct_then_send dc
        (New_Variables thread_index stack_index (VList []) get_child_keys
                       caller_data) g c.
Proof.
  assert (E : construct (New_Variables thread_index stack_index VNone
                           get_child_keys caller_data) g
              = construct (New_Variables thread_index stack_index (VList [])
                             get_child_keys caller_data) g) by reflexivity.
  split; [exact E|]. intros C dc c. unfold construct_then_send. now rewrite E.
Qed.

Lemma index_is_valid_iff (v : Value) :
  index_is_valid v = Ok true <-> nonnegative_int v.
Proof.
  unfold index_is_valid, nonnegative_int, py_int.
  destruct v as [|b|n|s|cc|l]; cbn [py_is_None negb int_value].
  - split; [discriminate | intros (n & H & _); discriminate].
  - split; [intros _; exists (if b then 1 else 0); destruct b; split; auto; lia|].
    intros _. now destruct b.
  - split.
    + intro H. injection H as H. apply Z.geb_le in H. eauto.
    + intros (m & H & Hm). injection H as ->. f_equal. apply Z.geb_le. lia.
  - split; [intros _; exists (StepType_value s); destruct s; cbn; split; auto; lia|].
    intros _. now destruct s.
  - split; [intros _; exists (CmdCode_value cc); destruct cc; cbn; split; auto; lia|].
    intros _. now destruct cc.
  - split; [discriminate | intros (n & H & _); discriminate].
Qed.

Lemma index_is_valid_false (v : Value) :
  v = VNone \/ (exists n, int_value v = Some n /\ n < 0) ->
  index_is_valid v = Ok false.
Proof.
  intros [->|(n & H & Hn)]; [reflexivity|].
  unfold index_is_valid, py_int.
  destruct v as [|b|k|s|cc|l]; cbn [int_value] in H; try discriminate;
    injection H as <-; cbn [py_is_None negb int_value].
  - destruct b; lia.
  - f_equal. destruct (Z.geb_spec k 0); [lia | reflexivity].
  - destruct s; cbn in Hn; lia.
  - destruct cc; cbn in Hn; lia.
Qed.

Lemma boolean_like_iff (v : Value) :
  (py_eq_bool v true || py_eq_bool v false) = true <-> boolean_like v.
Proof.
  unfold py_eq_bool, boolean_like.
  destruct (int_value v) as [n|].
  - rewrite orb_true_iff, !Z.eqb_eq. split; intros [H|H]; subst; auto;
      injection H as ->; auto.
  - cbn. split; [discriminate | intros [H|H]; discriminate].
Qed.

(** X6. For arguments that are [None], booleans, integers, members of the
    module's enumerations or lists of strings, the variables constructor
    returns a request exactly when the main module has [gMain.gDebugLevel],
    both indices are integers that are not negative, the child-keys flag
    equals [True] or [False], the path is [None] or a list, and no segment
    holds a lone surrogate.  Arguments of other types, which [int()] and
    [len()] may also accept (a float, a numeric string, a tuple), are not
    values of [Value] and this statement says nothing about them. *)
Theorem Variables_constructed_iff
  (thread_index stack_index variable_path get_child_keys caller_data : Value)
  (g : Globals) :
  (exists r g',
     construct (New_Variables thread_index stack_index variable_path
                              get_child_keys caller_data) g = (Ok r, g'))
  <->
  (exists m lvl, main_gMain g = Some m /\ gDebugLevel m = Some lvl) /\
  nonnegative_int thread_index /\
  nonnegative_int stack_index /\
  boolean_like get_child_keys /\
  (variable_path = VNone \/ exists l, variable_path = VList l) /\
  forallb encodable (normalized_path variable_path) = true.
Proof.
  cbn [construct]. split.
  - intros (r & g' & H).
    apply DebuggerRequest_Variables__init__inv in H
      as (m & lvl & Hm & Hl & Hti & Hsi & Hk & Hp & He & _).
    split; [eauto|]. split; [now apply index_is_valid_iff|].
    split; [now apply index_is_valid_iff|].
    split; [now apply boolean_like_iff|]. now split.
  - intros ((m & lvl & Hm & Hl) & Hti & Hsi & Hk & Hp & He).
    apply index_is_valid_iff in Hti, Hsi. apply boolean_like_iff in Hk.
    rewrite (DebuggerRequest_Variables__init__total _ _ _ _ _ g m lvl
               Hm Hl Hti Hsi Hk Hp).
    cbv zeta. rewrite He. eauto.
Qed.

(** X7. With the debug level readable, the variables constructor rejects
    its arguments in the order thread index, stack index, flag, path: an
    index that is [None] or a negative integer and a flag that is neither
    [True] nor [False] raise [AssertionError]; an index or a path that is
    not of the right type (a list as index, an integer as path) raises
    [TypeError]. *)
Theorem Variables_rejects_bad_arguments
  (thread_index stack_index variable_path get_child_keys caller_data : Value)
  (g : Globals) (m : GMain) (lvl : Z) :
  main_gMain g = Some m -> gDebugLevel m = Some lvl ->
  let made := fst (construct (New_Variables thread_index stack_index
                                variable_path get_child_keys caller_data) g) in
  (thread_index = VNone \/
   (exists n, int_value thread_index = Some n /\ n < 0) ->
   made = Raise AssertionError) /\
  ((exists l, thread_index = VList l) -> made = Raise TypeError) /\
  (nonnegative_int thread_index ->
   stack_index = VNone \/ (exists n, int_value stack_index = Some n /\ n < 0) ->
   made = Raise AssertionError) /\
  (nonnegative_int thread_index -> nonnegative_int stack_index ->
   ~ boolean_like get_child_keys ->
   made = Raise AssertionError) /\
  (nonnegative_int thread_index -> nonnegative_int stack_index ->
   boolean_like get_child_keys ->
   (exists n, int_value variable_path = Some n) ->
   made = Raise TypeError).
Proof.
  intros Hm Hl. cbv zeta. cbn [construct].
  unfold DebuggerRequest_Variables__init__, init_bind.
  rewrite DebuggerRequest__init__run, Hm, Hl. cbv zeta.
  unfold init_lift, init_assert, init_ret, init_raise.
  split; [|split; [|split; [|split]]].
  - intro H. now rewrite (index_is_valid_false _ H).
  - intros (l & ->). reflexivity.
  - intros Hti H. apply index_is_valid_iff in Hti.
    now rewrite Hti, (index_is_valid_false _ H).
  - intros Hti Hsi Hk. apply index_is_valid_iff in Hti, Hsi.
    rewrite Hti, Hsi.
    destruct (py_eq_bool get_child_keys true || py_eq_bool get_child_keys false)
      eqn:E; [|reflexivity].
    apply boolean_like_iff in E. contradiction.
  - intros Hti Hsi Hk (n & Hn). apply index_is_valid_iff in Hti, Hsi.
    apply boolean_like_iff in Hk. rewrite Hti, Hsi, Hk.
    destruct variable_path; cbn [int_value] in Hn; try discriminate;
      reflexivity.
Qed.

(** X8. The step constructor returns a request exactly when the step kind
    is a member of [StepType] and the main module has [gMain.gDebugLevel].
    It never looks at the thread index: whatever value is passed, [None] or
    a negative number included, is stored as given. *)
Theorem Step_constructed_iff (thread_index step_type : Value) (g : Globals) :
  ((exists r g', construct (New_Step thread_index step_type) g = (Ok r, g'))
   <->
   (exists s, step_type = VStepType s) /\
   (exists m lvl, main_gMain g = Some m /\ gDebugLevel m = Some lvl)) /\
  (forall r g',
     construct (New_Step thread_index step_type) g = (Ok r, g') ->
     exists s,
       step_type = VStepType s /\ variant r = Step thread_index s 17 /\
       cmd_code r = STEP /\ caller_data r = VNone /\ request_id r = None).
Proof.
  split.
  - split.
    + intros (r & g' & H).
      destruct (construct_fields _ _ _ _ H) as (_ & _ & s & Hs & _).
      apply construct_inv in H as (m & lvl & Hm & Hl & _). eauto 6.
    + intros ((s & ->) & m & lvl & Hm & Hl). cbn [construct].
      unfold DebuggerRequest_Step__init__, _DebuggerRequest_NoParams__init__,
        init_bind.
      rewrite DebuggerRequest__init__run, Hm, Hl. cbv zeta.
      eexists _, _. reflexivity.
  - intros r g' H.
    destruct (construct_fields _ _ _ _ H) as (Hid & Hc & s & Hs & Hv & Hd).
    exists s. repeat split; assumption.
Qed.

(** X9. The enumerations: command codes are pairwise distinct, never 0 (so
    never falsy like [None]) and fit an unsigned 32-bit field; step kinds
    are pairwise distinct and fit a byte, like the variables flag. *)
Theorem enumeration_values :
  (forall a b, CmdCode_value a = CmdCode_value b -> a = b) /\
  (forall c, 0 < CmdCode_value c < 2 ^ 32) /\
  (forall c, py_truth (VCmdCode c) = true /\ py_is_None (VCmdCode c) = false) /\
  (forall a b, StepType_value a = StepType_value b -> a = b) /\
  (forall s, 0 <= StepType_value s < 2 ^ 8) /\
  0 <= GET_CHILD_KEYS < 2 ^ 8.
Proof.
  split; [|split; [|split; [|split; [|split]]]].
  - intros a b H. destruct a, b; try reflexivity; discriminate H.
  - intro c. destruct c; cbn; lia.
  - intro c. destruct c; split; reflexivity.
  - intros a b H. destruct a, b; try reflexivity; discriminate H.
  - intro s. destruct s; cbn; lia.
  - unfold GET_CHILD_KEYS. cbn. lia.
Qed.

(** ** Bounds on the declared size *)

Lemma utf8_len_bounds (s : str) :
  Z.of_nat (length s) <= utf8_len s <= 4 * Z.of_nat (length s).
Proof.
  unfold utf8_len, utf8_bytes. induction s as [|c s IH]; [cbn; lia|].
  cbn [flat_map length]. rewrite length_app, Nat2Z.inj_add, Nat2Z.inj_succ.
  assert (L : 1 <= Z.of_nat (length (utf8_code_point c)) <= 4).
  { rewrite utf8_code_point_length.
    destruct (c <? 0x80)%N; [cbn; lia|].
    destruct (c <? 0x800)%N; [cbn; lia|].
    destruct (c <? 0x10000)%N; cbn; lia. }
  lia.
Qed.

Lemma path_size_bounds (path : list str) :
  path_size_min path <= path_size path <= path_size_max path /\
  Z.of_nat (length path) <= path_size_min path /\
  (forallb is_ascii path = true -> path_size path = path_size_min path).
Proof.
  induction path as [|s path (IH1 & IH2 & IH3)].
  - cbn. repeat split; lia.
  - cbn [path_size path_size_min path_size_max forallb length].
    pose proof (utf8_len_bounds s) as Hs. rewrite Nat2Z.inj_succ.
    repeat split; try lia.
    intro H. apply andb_prop in H as [Ha Hp].
    rewrite (IH3 Hp), (utf8_len_ascii s Ha). reflexivity.
Qed.

(** X10. The size a variables request declares lies between 25 plus, per
    segment, its number of characters plus 1, and 25 plus, per segment, four
    times its number of characters plus 1; it is the lower bound when every
    character is ASCII, and at least 25 plus the number of segments. *)
Theorem Variables_size_bounds
  (thread_index stack_index variable_path get_child_keys caller_data : Value)
  (g g' : Globals) (r : DebuggerRequest) :
  construct (New_Variables thread_index stack_index variable_path
                           get_child_keys caller_data) g = (Ok r, g') ->
  let path := normalized_path variable_path in
  25 + path_size_min path <= declared_size r <= 25 + path_size_max path /\
  25 + Z.of_nat (length path) <= declared_size r /\
  (forallb is_ascii path = true -> declared_size r = 25 + path_size_min path).
Proof.
  intro H. cbv zeta.
  destruct (construct_fields _ _ _ _ H) as (_ & _ & Hv & _).
  unfold declared_size. rewrite Hv.
  destruct (path_size_bounds (normalized_path variable_path))
    as (B1 & B2 & B3).
  repeat split; try lia. intro Ha. rewrite (B3 Ha). reflexivity.
Qed.

(** ** What a constructor does to the interpreter state *)

(** X11. A constructor call, whether it returns a request or raises, never
    changes the main module; it either leaves the interpreter state as it
    was or has bound the module's global [gMain] to the main module's. *)
Theorem construct_leaves_main_module (k : Ctor) (g : Globals) :
  main_gMain (snd (construct k g)) = main_gMain g /\
  (snd (construct k g) = g \/
   gMain (snd (construct k g)) = main_gMain g).
Proof.
  assert (B : forall cmd cd,
             main_gMain (snd (DebuggerRequest__init__ cmd cd g)) = main_gMain g
             /\ (snd (DebuggerRequest__init__ cmd cd g) = g \/
                 gMain (snd (DebuggerRequest__init__ cmd cd g))
                 = main_gMain g)).
  { intros cmd cd. rewrite DebuggerRequest__init__run.
    destruct (main_gMain g) as [m|] eqn:Hm; [|now split; auto].
    cbv zeta. destruct (gDebugLevel m); cbn; auto. }
  destruct k as [cc cd| | |ti cd|ti st| |cd|ti si vp gck cd]; cbn [construct];
    unfold _DebuggerRequest_NoParams__init__, DebuggerRequest_Continue__init__,
      DebuggerRequest_ExitChannel__init__, DebuggerRequest_Stop__init__,
      DebuggerRequest_Threads__init__, _DebuggerRequest_NoParams__init__;
    try apply B.
  - unfold DebuggerRequest_Stacktrace__init__, init_bind, init_ret.
    specialize (B STACKTRACE cd).
    destruct (DebuggerRequest__init__ STACKTRACE cd g) as [[r|e] g'];
      exact B.
  - unfold DebuggerRequest_Step__init__, _DebuggerRequest_NoParams__init__,
      init_bind, init_ret, init_raise.
    destruct st; try (cbn; now auto).
    specialize (B STEP VNone).
    destruct (DebuggerRequest__init__ STEP VNone g) as [[r|e] g']; exact B.
  - unfold DebuggerRequest_Variables__init__, init_bind, init_lift,
      init_assert, init_ret, init_raise.
    specialize (B VARIABLES cd).
    destruct (DebuggerRequest__init__ VARIABLES cd g)
      as [[r|e] g']; [|exact B]. cbn [snd] in B.
    destruct (index_is_valid ti) as [[|]|]; try exact B.
    destruct (index_is_valid si) as [[|]|]; try exact B.
    destruct (py_eq_bool gck true || py_eq_bool gck false); try exact B.
    destruct (path_is_valid vp) as [[|]|]; try exact B.
    destruct (py_iter _) as [elems|]; try exact B.
    destruct (add_path_sizes elems _) as [n|]; exact B.
Qed.

(** ** Sending a request again *)

Section Resend.
Context {C : Type} (dc : DebuggerClient C).

(** The header routine overwrites the stored identifier without reading
    it. *)
Lemma _send_base_fields_ignores_id (packet_size : Z) (r : DebuggerRequest)
  (x : option Z) (c : C) :
  _send_base_fields dc packet_size (with_request_id r x) c
  = _send_base_fields dc packet_size r c.
Proof.
  destruct (header_facts dc packet_size r c)
    as (id & n1 & n2 & n3 & c1 & c2 & c3 & c4 & E0 & E1 & E2 & E3 & H).
  destruct (header_facts dc packet_size (with_request_id r x) c)
    as (id' & m1 & m2 & m3 & d1 & d2 & d3 & d4 & F0 & F1 & F2 & F3 & H').
  cbn [with_request_id cmd_code _debug] in F3, H'.
  rewrite E0 in F0. injection F0 as <- <-.
  rewrite E1 in F1. injection F1 as <- <-.
  rewrite E2 in F2. injection F2 as <- <-.
  rewrite E3 in F3. injection F3 as <- <-.
  rewrite H, H'. reflexivity.
Qed.

Lemma bind_same_start {A B} (m : M C A) (k : A -> M C B)
  (s1 s2 : DebuggerRequest) (c : C) :
  m s1 c = m s2 c -> bind m k s1 c = bind m k s2 c.
Proof. intro H. unfold bind. now rewrite H. Qed.

(** X12. [send] does not look at the identifier a request already holds:
    sending a request that was sent before performs the same client calls
    with the same arguments, returns the same value and leaves the same
    request and client as sending it for the first time, so each send gets
    the identifier the client hands out then. *)
Theorem send_ignores_stored_id (r : DebuggerRequest) (x : option Z) (c : C) :
  let first := send dc r c in
  let again := send dc (with_request_id r x) c in
  ops_of_events (events again) = ops_of_events (events first) /\
  fields_written (events again) = fields_written (events first) /\
  ids_requested (events again) = ids_requested (events first) /\
  result again = result first /\
  self_after again = self_after first /\
  client_after again = client_after first.
Proof.
  cbv zeta. rewrite !send_is_send_in_parts. unfold send_in_parts.
  set (r' := with_request_id r x).
  assert (E : _send_base_fields dc (declared_size r') r' c
              = _send_base_fields dc (declared_size r) r c)
    by apply _send_base_fields_ignores_id.
  rewrite !events_bind, !result_bind, !self_after_bind, !client_after_bind.
  rewrite !prologue_run.
  cbn beta iota delta [result self_after client_after events].
  rewrite !E. change (payload dc r') with (payload dc r).
  rewrite !ops_of_events_app, !fields_written_app, !ids_requested_app.
  assert (P : forall q : DebuggerRequest,
             ops_of_events
               (match variant q with
                | NoParams =>
                    if _debug q >=? 1 then [Printed (debug_send q)] else []
                | _ => []
                end) = []).
  { intro q. destruct (variant q); try reflexivity.
    destruct (_debug q >=? 1); reflexivity. }
  destruct (no_ops_no_effect _ (P r)) as (I1 & F1 & _).
  destruct (no_ops_no_effect _ (P r')) as (I2 & F2 & _).
  rewrite (P r), (P r'), I1, I2, F1, F2. repeat split; reflexivity.
Qed.

End Resend.

(** ** The further properties at concrete requests *)

(** X1 for an exit-channel request on the reference client. *)
Lemma no_payload_request_is_header_only_witness :
  exists r g',
    construct New_ExitChannel (globals_with_level 0) = (Ok r, g') /\
    exists id,
      ids_requested (events (send (RefClient.client 4) r RefClient.start))
      = [id] /\
      fields_written (events (send (RefClient.client 4) r RefClient.start))
      = [F_uint (VInt 12); F_uint (VInt id); F_uint (VCmdCode EXIT_CHANNEL)] /\
      result (send (RefClient.client 4) r RefClient.start) = Ok (VInt 12) /\
      bytes_written (events (send (RefClient.client 4) r RefClient.start)) = 12.
Proof.
  eexists _, _. split; [reflexivity|].
  exact (no_payload_request_is_header_only (RefClient.client 4)
           New_ExitChannel (globals_with_level 0) _ _ RefClient.start
           eq_refl eq_refl (proj1 RefClient_honours_contract)).
Defined.

(** X2 for thread 3 on the reference client. *)
Lemma Stacktrace_fields_in_order_witness :
  exists r g',
    construct (New_Stacktrace (VInt 3) VNone) (globals_with_level 0)
    = (Ok r, g') /\
    exists id,
      ids_requested (events (send (RefClient.client 4) r RefClient.start))
      = [id] /\
      fields_written (events (send (RefClient.client 4) r RefClient.start))
      = [F_uint (VInt 16); F_uint (VInt id); F_uint (VCmdCode STACKTRACE);
         F_uint (VInt 3)] /\
      result (send (RefClient.client 4) r RefClient.start) = Ok VNone.
Proof.
  eexists _, _. split; [reflexivity|].
  exact (Stacktrace_fields_in_order (RefClient.client 4) (VInt 3) VNone
           (globals_with_level 0) _ _ RefClient.start eq_refl
           (proj1 RefClient_honours_contract)).
Defined.

(** X3 for thread 2, stepping out, on the reference client. *)
Lemma Step_fields_in_order_witness :
  exists r g',
    construct (New_Step (VInt 2) (VStepType OUT)) (globals_with_level 0)
    = (Ok r, g') /\
    exists id,
      ids_requested (events (send (RefClient.client 4) r RefClient.start))
      = [id] /\
      fields_written (events (send (RefClient.client 4) r RefClient.start))
      = [F_uint (VInt 17); F_uint (VInt id); F_uint (VCmdCode STEP);
         F_uint (VInt 2); F_byte 2] /\
      0 <= 2 <= 3 /\
      result (send (RefClient.client 4) r RefClient.start) = Ok VNone.
Proof.
  eexists _, _. split; [reflexivity|].
  exact (Step_fields_in_order (RefClient.client 4) (VInt 2) OUT
           (globals_with_level 0) _ _ RefClient.start eq_refl
           (proj1 RefClient_honours_contract)).
Defined.

(** X4 on a client that reports 0 bytes for byte and string writes: a
    variables request announcing 29 bytes is sent without error although
    only 24 are reported; and on a client that reports 5 bytes for a 32-bit
    write the same request raises. *)
Lemma send_checks_header_count_only_witness :
  exists r g',
    construct (New_Variables (VInt 0) (VInt 0) (VList path_a_b) (VBool true)
                             VNone) (globals_with_level 0) = (Ok r, g') /\
    (result (send careless_client r RefClient.start) = Ok VNone /\
     bytes_written (events (send careless_client r RefClient.start)) = 24) /\
    result (send (RefClient.client 5) r RefClient.start)
    = Raise AssertionError.
Proof.
  eexists _, _. split; [reflexivity|]. split; [split; [|reflexivity]|].
  - destruct (send_checks_header_count_only careless_client
                (New_Variables (VInt 0) (VInt 0) (VList path_a_b) (VBool true)
                               VNone)
                (globals_with_level 0) _ _ RefClient.start eq_refl)
      as (id & _ & _ & Hok & _).
    exact (proj1 (Hok eq_refl)).
  - destruct (send_checks_header_count_only (RefClient.client 5)
                (New_Variables (VInt 0) (VInt 0) (VList path_a_b) (VBool true)
                               VNone)
                (globals_with_level 0) _ _ RefClient.start eq_refl)
      as (id & _ & _ & _ & Hbad).
    refine (proj1 (Hbad _)). discriminate.
Defined.

(** X7 for a stack index of -1, a flag of 2 and a path of 7. *)
Lemma Variables_rejects_bad_arguments_witness :
  fst (construct (New_Variables (VInt 0) (VInt (-1)) VNone (VBool true) VNone)
                 (globals_with_level 0)) = Raise AssertionError /\
  fst (construct (New_Variables (VInt 0) (VInt 0) VNone (VInt 2) VNone)
                 (globals_with_level 0)) = Raise AssertionError /\
  fst (construct (New_Variables (VInt 0) (VInt 0) (VInt 7) (VBool true) VNone)
                 (globals_with_level 0)) = Raise TypeError.
Proof.
  split; [|split].
  - refine (proj1 (proj2 (proj2
      (Variables_rejects_bad_arguments (VInt 0) (VInt (-1)) VNone (VBool true)
         VNone (globals_with_level 0) _ 0 eq_refl eq_refl))) _ _).
    + exists 0. split; [reflexivity | lia].
    + right. exists (-1). split; [reflexivity | lia].
  - refine (proj1 (proj2 (proj2 (proj2
      (Variables_rejects_bad_arguments (VInt 0) (VInt 0) VNone (VInt 2)
         VNone (globals_with_level 0) _ 0 eq_refl eq_refl)))) _ _ _).
    + exists 0. split; [reflexivity | lia].
    + exists 0. split; [reflexivity | lia].
    + intros [H|H]; discriminate H.
  - refine (proj2 (proj2 (proj2 (proj2
      (Variables_rejects_bad_arguments (VInt 0) (VInt 0) (VInt 7) (VBool true)
         VNone (globals_with_level 0) _ 0 eq_refl eq_refl)))) _ _ _ _).
    + exists 0. split; [reflexivity | lia].
    + exists 0. split; [reflexivity | lia].
    + left. reflexivity.
    + exists 7. reflexivity.
Defined.

(** X10 for segments of 4, 1 and 1 characters taking 5, 3 and 4 bytes. *)
Lemma Variables_size_bounds_witness :
  exists r g',
    construct (New_Variables (VInt 0) (VInt 0) (VList path_multibyte)
                             (VBool false) VNone) (globals_with_level 0)
    = (Ok r, g') /\
    (34 <= declared_size r <= 52) /\ declared_size r = 40.
Proof.
  eexists _, _. split; [reflexivity|]. split; [|reflexivity].
  exact (proj1 (Variables_size_bounds (VInt 0) (VInt 0) (VList path_multibyte)
                  (VBool false) VNone (globals_with_level 0) _ _ eq_refl)).
Defined.
